(** * Voice shopping assistant: session store, turn pipeline, intent classifier

    A shallow embedding of the voice-assistant core of the storefront:

    - [app/lib/voice-ai/vertex-assistant.service.server.ts]
      ([detectIntent], [extractActions], [generateAssistantResponse]);
    - [app/lib/voice-ai/voice-session.service.ts]
      (the Firestore-backed session operations);
    - [app/routes/api.voice.process-audio.tsx],
      [app/routes/api.voice.end-session.tsx],
      [app/routes/api.voice.start-session.tsx] and the voice
      add-to-cart route (the route actions);
    - the speech-to-text service ([transcribeAudio]) and the webhook
      utilities ([triggerWebhook]).

    Conventions of the embedding.

    - JavaScript strings are [string]s of 8-bit characters.  [toLowerCase]
      maps [A-Z] to [a-z] and leaves every other character alone, and the
      regular expressions of the source (which carry no [u] flag) see
      [\w] as [[A-Za-z0-9_]]; this is the behaviour of the source on
      ASCII text.
    - JavaScript numbers that count things are [Z]; instants
      ([new Date()], ISO-8601 strings) are [Z] milliseconds since the epoch,
      so that [new Date(s).getTime()] is the identity and the
      lexicographic comparison Firestore does on ISO strings is [<] on [Z].
    - An optional property ([x?: T], or a property holding [undefined])
      is an [option].
    - The [voice_sessions] collection is a [gmap string VoiceSession].
      Reads and writes of an existing document succeed; [update] of a
      missing document throws, as Firestore's does. The session service
      is given twice: first with writes that store whatever they are
      handed, then, in [Module Strict], with the writes of the client
      the service builds, which refuse data holding [undefined]. The
      two renderings of a turn agree unless its intent is
      [funnel_navigation].
    - The keys of the collection are document ids. An id that is not
      one (it holds a slash, say) makes the client throw before it reads
      or writes; statements about a session that is not stored are
      made for ids of the shape [generateSessionId] gives.
    - Everything the code obtains from outside (the clock, the random
      session id, the transcriber, the customer-account query, the
      generative model) is an explicit argument. *)

From Stdlib Require Import ZArith Ascii String List Bool Lia.
From Stdlib Require QArith.
From stdpp Require Import base option list gmap strings.

Set Default Proof Using "Type".

(* ===================================================================== *)
(** * JavaScript strings and the regular expressions of the source *)
(* ===================================================================== *)

Module JsString.

Definition chars (s : string) : list ascii := list_ascii_of_string s.

Definition inRange (lo hi : N) (c : ascii) : bool :=
  let n := N_of_ascii c in ((lo <=? n) && (n <=? hi))%N.

Definition isUpper : ascii -> bool := inRange 65 90.
Definition isLower : ascii -> bool := inRange 97 122.
Definition isDigit : ascii -> bool := inRange 48 57.

Definition lowerChar (c : ascii) : ascii :=
  if isUpper c then ascii_of_N (N_of_ascii c + 32) else c.

(** [String.prototype.toLowerCase] *)
Definition toLowerCase (s : string) : list ascii := map lowerChar (chars s).

(** The class [\w]. *)
Definition isWordChar (c : ascii) : bool :=
  isUpper c || isLower c || isDigit c || Ascii.eqb c "_"%char.

Definition isWordAt (c : option ascii) : bool :=
  match c with Some a => isWordChar a | None => false end.

(** The assertion [\b] between the character [before] the position
    and the character [after] it ([None] at either end of the input). *)
Definition wordBoundary (before after : option ascii) : bool :=
  xorb (isWordAt before) (isWordAt after).

(** [stripPrefix w s] is what is left of [s] after the literal [w]. *)
Fixpoint stripPrefix (w s : list ascii) : option (list ascii) :=
  match w, s with
  | [], _ => Some s
  | _ :: _, [] => None
  | a :: w', c :: s' => if Ascii.eqb a c then stripPrefix w' s' else None
  end.

(** The same under the [i] flag, for a literal [w] written in lower case. *)
Fixpoint stripPrefixCI (w s : list ascii) : option (list ascii) :=
  match w, s with
  | [], _ => Some s
  | _ :: _, [] => None
  | a :: w', c :: s' =>
      if Ascii.eqb a (lowerChar c) then stripPrefixCI w' s' else None
  end.

(** One alternative [w] of [\b(w1|w2|...)\b] tried at one position. *)
Definition matchAltAt (before : option ascii) (s : list ascii)
    (w : string) : bool :=
  wordBoundary before (head s) &&
  match stripPrefix (chars w) s with
  | Some rest =>
      wordBoundary (match last (chars w) with Some c => Some c | None => before end)
                   (head rest)
  | None => false
  end.

(** [s.match(/\b(w1|w2|...)\b/)] is truthy: some alternative matches
    at some position. [before] is the character preceding [s]. *)
Fixpoint matchWordsFrom (alts : list string) (before : option ascii)
    (s : list ascii) : bool :=
  existsb (matchAltAt before s) alts ||
  match s with
  | [] => false
  | c :: s' => matchWordsFrom alts (Some c) s'
  end.

Definition matchWords (alts : list string) (s : list ascii) : bool :=
  matchWordsFrom alts None s.

(** The class of the two quote characters, double (34) and single (39). *)
Definition isQuote (c : ascii) : bool :=
  (N_of_ascii c =? 34)%N || (N_of_ascii c =? 39)%N.

(** The longest prefix of non-quote characters, and the rest. *)
Fixpoint spanNonQuote (s : list ascii) : list ascii * list ascii :=
  match s with
  | [] => ([], [])
  | c :: s' =>
      if isQuote c then ([], s)
      else let '(body, rest) := spanNonQuote s' in (c :: body, rest)
  end.

(** The tail of the pattern at the start of [s]: the literal  for
    with its two blanks, a quote, one or more non-quote characters
    (the capture) and a quote. The capture is greedy and cannot give
    characters back, since the character after it has to be a quote. *)
Definition quotedAfterFor (s : list ascii) : option (list ascii) :=
  match stripPrefixCI (chars " for ") s with
  | Some (q :: r) =>
      if isQuote q then
        match spanNonQuote r with
        | ((_ :: _) as body, _ :: _) => Some body
        | _ => None
        end
      else None
  | _ => None
  end.

(** The whole pattern of [extractActions], under the [i] flag,
    anchored at the start of [s]: [search], the optional group [ing]
    (greedy: tried first, then skipped), then the tail above. *)
Definition searchPhraseAt (s : list ascii) : option (list ascii) :=
  match stripPrefixCI (chars "search") s with
  | None => None
  | Some r =>
      match stripPrefixCI (chars "ing") r with
      | Some r' =>
          match quotedAfterFor r' with
          | Some q => Some q
          | None => quotedAfterFor r
          end
      | None => quotedAfterFor r
      end
  end.

(** [responseText.match(...)] with that pattern: the first capture
    group of the leftmost match, [None] when [match] returns [null]. *)
Fixpoint searchPhrase (s : list ascii) : option (list ascii) :=
  match searchPhraseAt s with
  | Some q => Some q
  | None => match s with [] => None | _ :: s' => searchPhrase s' end
  end.

End JsString.

(* ===================================================================== *)
(** * The assistant engine: vertex-assistant.service.server.ts *)
(* ===================================================================== *)

(** [AssistantResponse['intent']] *)
Inductive Intent :=
  | product_search | add_to_cart | checkout | general_help
  | funnel_navigation | order_status | unknown.

#[global] Instance Intent_eq_dec : EqDecision Intent.
Proof. solve_decision. Defined.

(** The string an intent is at run time. *)
Definition intentName (i : Intent) : string :=
  match i with
  | product_search => "product_search"
  | add_to_cart => "add_to_cart"
  | checkout => "checkout"
  | general_help => "general_help"
  | funnel_navigation => "funnel_navigation"
  | order_status => "order_status"
  | unknown => "unknown"
  end.

Record ConversationMessage := {
  role : bool;            (* true: 'user', false: 'assistant' *)
  content : string;
  timestamp : Z;
}.

Record ProductContext := {
  product_id : string;
  product_title : string;
  product_price : string;
  product_available : bool;
}.

Record CartContext := {
  cart_productId : string;
  cart_productTitle : string;
  cart_quantity : Z;
  cart_price : string;
}.

(** [AssistantContext]; [userPreferences] (an untyped bag nothing here
    reads) is left out. *)
Record AssistantContext := {
  ctx_customerId : option string;
  ctx_customerName : option string;
  ctx_language : option string;
  ctx_conversationHistory : option (list ConversationMessage);
  ctx_currentProducts : option (list ProductContext);
  ctx_cartItems : option (list CartContext);
  ctx_funnelStage : option string;
}.

(** The [data] object of a suggested action: the properties the code
    writes or reads, each possibly absent. *)
Record ActionData := {
  data_query : option string;
  data_productId : option string;
  data_direction : option string;
  data_customerId : option string;
  data_stage : option string;
}.

Definition noData : ActionData :=
  {| data_query := None; data_productId := None; data_direction := None;
     data_customerId := None; data_stage := None |}.

(** [{type: string; data: any}]: [data] is an object with some of the
    properties above, or [undefined]. *)
Record Action := { type : string; data : option ActionData }.

Section Patterns.
Import JsString.

Definition searchVerbs : list string :=
  ["find"; "search"; "looking for"; "show me"; "need"]%string.
Definition searchNouns : list string :=
  ["product"; "item"; "clothing"; "shoe"; "dress"; "shirt"]%string.
Definition cartVerbs : list string := ["add"; "put"; "place"]%string.
Definition cartNouns : list string := ["cart"; "bag"; "basket"]%string.
Definition checkoutWords : list string :=
  ["checkout"; "buy"; "purchase"; "pay"; "order"]%string.
Definition orderNouns : list string :=
  ["order"; "tracking"; "delivery"; "shipping"; "status"]%string.
Definition orderQuestions : list string :=
  ["where"; "when"; "track"; "status"]%string.
Definition funnelInputWords : list string :=
  ["next"; "continue"; "proceed"; "back"]%string.
Definition funnelResponseWords : list string :=
  ["step"; "stage"; "funnel"]%string.

(** [detectIntent(userInput, responseText)] *)
Definition detectIntent (userInput responseText : string) : Intent :=
  let input := toLowerCase userInput in
  let response := toLowerCase responseText in
  if matchWords searchVerbs input && matchWords searchNouns input
  then product_search
  else if matchWords cartVerbs input && matchWords cartNouns input
  then add_to_cart
  else if matchWords checkoutWords input
  then checkout
  else if matchWords orderNouns input && matchWords orderQuestions input
  then order_status
  else if matchWords funnelInputWords input
          || matchWords funnelResponseWords response
  then funnel_navigation
  else general_help.

(** [extractActions(responseText, intent, context)] *)
Definition extractActions (responseText : string) (intent : Intent)
    (context : AssistantContext) : list Action :=
  match intent with
  | product_search =>
      match searchPhrase (chars responseText) with
      | Some q =>
          [ {| type := "search_products";
               data := Some {| data_query := Some (string_of_list_ascii q);
                          data_productId := None; data_direction := None;
                          data_customerId := None; data_stage := None |} |} ]
      | None => []
      end
  | add_to_cart =>
      match ctx_currentProducts context with
      | Some (p :: _) =>
          [ {| type := "add_to_cart";
               data := Some {| data_query := None;
                          data_productId := Some (product_id p);
                          data_direction := None;
                          data_customerId := None; data_stage := None |} |} ]
      | _ => []
      end
  | checkout => [ {| type := "navigate_to_checkout"; data := Some noData |} ]
  | funnel_navigation =>
      [ {| type := "navigate_funnel";
           data := Some {| data_query := None; data_productId := None;
                      data_direction := Some "next"%string;
                      data_customerId := None; data_stage := None |} |} ]
  | order_status =>
      [ {| type := "show_orders";
           data := Some {| data_query := None; data_productId := None;
                      data_direction := None;
                      data_customerId := ctx_customerId context;
                      data_stage := None |} |} ]
  | general_help | unknown => []
  end.

End Patterns.

(* ===================================================================== *)
(** * JavaScript values, exceptions and the store monad *)
(* ===================================================================== *)

(** Truthiness of an optional string: [undefined], [null] and the empty
    string are falsy. *)
Definition truthyString (s : option string) : bool :=
  match s with Some (String _ _) => true | _ => false end.

(** [s || d] on an optional string. *)
Definition orString (s : option string) (d : string) : string :=
  match s with Some (String _ _ as v) => v | _ => d end.

(** What the code can throw. *)
Inductive Exn :=
  | SessionNotFoundError     (* new Error('Session not found') *)
  | DocumentMissing          (* Firestore: update of a missing document *)
  | TypeError                (* reading a property of undefined *)
  | TranscribeFailed         (* new Error('Failed to transcribe audio: ...') *)
  | CollaboratorFailed       (* a rejected call to an outside service *)
  | InvalidValue.            (* Firestore: a write holding undefined is refused *)

Inductive Outcome (A : Type) :=
  | Returned (a : A)
  | Thrown (e : Exn).
Arguments Returned {A} a.
Arguments Thrown {A} e.

Inductive Status := active | paused | completed | abandoned.

#[global] Instance Status_eq_dec : EqDecision Status.
Proof. solve_decision. Defined.

Inductive DeviceType := web | mobile | phone.

Record Metadata := {
  deviceType : DeviceType;
  userAgent : option string;
  ipAddress : option string;
  totalMessages : Z;
  totalDuration : option Z;
}.

Record Analytics := {
  intents : gmap string Z;
  productsDiscussed : list string;
  conversionsAttempted : Z;
  satisfactionScore : option Z;
}.

(** [VoiceSession] *)
Record VoiceSession := {
  sessionId : string;
  customerId : option string;
  startTime : Z;
  endTime : option Z;
  status : Status;
  language : string;
  conversationHistory : list ConversationMessage;
  context : AssistantContext;
  metadata : Metadata;
  analytics : Analytics;
}.

(** The [voice_sessions] collection. *)
Abbreviation Store := (gmap string VoiceSession).

(** An asynchronous function of the source: it reads and writes the
    collection and either returns or throws; what it wrote before it
    threw stays written. *)
Definition Js (A : Type) : Type := Store -> Outcome A * Store.

#[global] Instance Js_ret : MRet Js := fun A a σ => (Returned a, σ).

#[global] Instance Js_bind : MBind Js := fun A B k m σ =>
  match m σ with
  | (Returned a, σ') => k a σ'
  | (Thrown e, σ') => (Thrown e, σ')
  end.

Definition throw {A} (e : Exn) : Js A := fun σ => (Thrown e, σ).

(** [try { m } catch { h }] *)
Definition tryCatch {A} (m : Js A) (h : Exn -> Js A) : Js A :=
  fun σ => match m σ with
           | (Returned a, σ') => (Returned a, σ')
           | (Thrown e, σ') => h e σ'
           end.

(** Awaiting a call to an outside service whose outcome is given. *)
Definition await {A} (o : Outcome A) : Js A := fun σ => (o, σ).

(** ** Firestore document operations *)

Definition docGet (id : string) : Js (option VoiceSession) :=
  fun σ => (Returned (σ !! id), σ).

Definition docSet (id : string) (s : VoiceSession) : Js unit :=
  fun σ => (Returned tt, <[id := s]> σ).

(** [ref.update(fields)]: [fields] rewrites the stored document. *)
Definition docUpdate (id : string) (fields : VoiceSession -> VoiceSession)
  : Js unit :=
  fun σ => match σ !! id with
           | Some d => (Returned tt, <[id := fields d]> σ)
           | None => (Thrown DocumentMissing, σ)
           end.

(** ** Field updates, one per field path the code writes *)

Definition setStatus (st : Status) (d : VoiceSession) : VoiceSession :=
  {| sessionId := sessionId d; customerId := customerId d;
     startTime := startTime d; endTime := endTime d; status := st;
     language := language d; conversationHistory := conversationHistory d;
     context := context d; metadata := metadata d; analytics := analytics d |}.

Definition setEndTime (t : option Z) (d : VoiceSession) : VoiceSession :=
  {| sessionId := sessionId d; customerId := customerId d;
     startTime := startTime d; endTime := t; status := status d;
     language := language d; conversationHistory := conversationHistory d;
     context := context d; metadata := metadata d; analytics := analytics d |}.

Definition setConversationHistory (h : list ConversationMessage)
    (d : VoiceSession) : VoiceSession :=
  {| sessionId := sessionId d; customerId := customerId d;
     startTime := startTime d; endTime := endTime d; status := status d;
     language := language d; conversationHistory := h;
     context := context d; metadata := metadata d; analytics := analytics d |}.

Definition setContext (c : AssistantContext) (d : VoiceSession) : VoiceSession :=
  {| sessionId := sessionId d; customerId := customerId d;
     startTime := startTime d; endTime := endTime d; status := status d;
     language := language d; conversationHistory := conversationHistory d;
     context := c; metadata := metadata d; analytics := analytics d |}.

Definition setMetadata (m : Metadata) (d : VoiceSession) : VoiceSession :=
  {| sessionId := sessionId d; customerId := customerId d;
     startTime := startTime d; endTime := endTime d; status := status d;
     language := language d; conversationHistory := conversationHistory d;
     context := context d; metadata := m; analytics := analytics d |}.

Definition setAnalytics (a : Analytics) (d : VoiceSession) : VoiceSession :=
  {| sessionId := sessionId d; customerId := customerId d;
     startTime := startTime d; endTime := endTime d; status := status d;
     language := language d; conversationHistory := conversationHistory d;
     context := context d; metadata := metadata d; analytics := a |}.

(** ['metadata.totalMessages'] *)
Definition setTotalMessages (n : Z) (d : VoiceSession) : VoiceSession :=
  setMetadata
    {| deviceType := deviceType (metadata d); userAgent := userAgent (metadata d);
       ipAddress := ipAddress (metadata d); totalMessages := n;
       totalDuration := totalDuration (metadata d) |} d.

(** ['metadata.totalDuration'] *)
Definition setTotalDuration (n : Z) (d : VoiceSession) : VoiceSession :=
  setMetadata
    {| deviceType := deviceType (metadata d); userAgent := userAgent (metadata d);
       ipAddress := ipAddress (metadata d);
       totalMessages := totalMessages (metadata d);
       totalDuration := Some n |} d.

(** ['analytics.satisfactionScore'] *)
Definition setSatisfactionScore (n : Z) (d : VoiceSession) : VoiceSession :=
  setAnalytics
    {| intents := intents (analytics d);
       productsDiscussed := productsDiscussed (analytics d);
       conversionsAttempted := conversionsAttempted (analytics d);
       satisfactionScore := Some n |} d.

(** ['analytics.productsDiscussed'] *)
Definition setProductsDiscussed (l : list string) (d : VoiceSession)
  : VoiceSession :=
  setAnalytics
    {| intents := intents (analytics d); productsDiscussed := l;
       conversionsAttempted := conversionsAttempted (analytics d);
       satisfactionScore := satisfactionScore (analytics d) |} d.

(** ['analytics.conversionsAttempted'] *)
Definition setConversionsAttempted (n : Z) (d : VoiceSession) : VoiceSession :=
  setAnalytics
    {| intents := intents (analytics d);
       productsDiscussed := productsDiscussed (analytics d);
       conversionsAttempted := n;
       satisfactionScore := satisfactionScore (analytics d) |} d.

(* ===================================================================== *)
(** * The session service: voice-session.service.ts *)
(* ===================================================================== *)

(** The argument of [createVoiceSession]. *)
Record SessionInit := {
  init_customerId : option string;
  init_language : option string;
  init_deviceType : DeviceType;
  init_userAgent : option string;
  init_ipAddress : option string;
}.

(** The session [createVoiceSession] builds; [newId] is what
    [generateSessionId()] returned and [now] the clock. *)
Definition freshSession (newId : string) (now : Z) (data : SessionInit)
  : VoiceSession :=
  {| sessionId := newId;
     customerId := init_customerId data;
     startTime := now;
     endTime := None;
     status := active;
     language := orString (init_language data) "en-US";
     conversationHistory := [];
     context :=
       {| ctx_customerId := init_customerId data;
          ctx_customerName := None;
          ctx_language := Some (orString (init_language data) "en-US");
          ctx_conversationHistory := Some [];
          ctx_currentProducts := None;
          ctx_cartItems := None;
          ctx_funnelStage := None |};
     metadata :=
       {| deviceType := init_deviceType data;
          userAgent := init_userAgent data;
          ipAddress := init_ipAddress data;
          totalMessages := 0;
          totalDuration := None |};
     analytics :=
       {| intents := ∅;
          productsDiscussed := [];
          conversionsAttempted := 0;
          satisfactionScore := None |} |}.

Definition createVoiceSession (newId : string) (now : Z) (data : SessionInit)
  : Js VoiceSession :=
  let session := freshSession newId now data in
  docSet (sessionId session) session ;;
  mret session.

Definition getVoiceSession (id : string) : Js (option VoiceSession) :=
  docGet id.

Definition getConversationHistory (id : string)
  : Js (list ConversationMessage) :=
  session ← getVoiceSession id;
  mret (match session with
        | Some s => conversationHistory s
        | None => []
        end).

Definition getTotalMessages (id : string) : Js Z :=
  session ← getVoiceSession id;
  mret (match session with
        | Some s => totalMessages (metadata s)
        | None => 0%Z
        end).

(** [session.analytics.intents[intent] || 0] *)
Definition intentCount (a : Analytics) (intent : string) : Z :=
  default 0%Z (intents a !! intent).

(** [{...session.analytics, intents: {...intents, [intent]: intentCount + 1}}] *)
Definition countIntent (a : Analytics) (intent : string) : Analytics :=
  {| intents := <[intent := (intentCount a intent + 1)%Z]> (intents a);
     productsDiscussed := productsDiscussed a;
     conversionsAttempted := conversionsAttempted a;
     satisfactionScore := satisfactionScore a |}.

Definition addMessageToSession (id : string) (message : ConversationMessage)
    (intent : option string) : Js unit :=
  history ← getConversationHistory id;
  total ← getTotalMessages id;
  newAnalytics ←
    match intent with
    | Some (String _ _ as name) =>
        session ← getVoiceSession id;
        mret (match session with
              | Some s => Some (countIntent (analytics s) name)
              | None => None
              end)
    | _ => mret None
    end;
  docUpdate id (fun d =>
    let d1 := setConversationHistory (history ++ [message]) d in
    let d2 := setTotalMessages (total + 1) d1 in
    match newAnalytics with
    | Some a => setAnalytics a d2
    | None => d2
    end).

(** A [Partial<AssistantContext>]: for each property, [None] when the
    key is absent and [Some v] when it is present with value [v] (which
    may be [undefined]). *)
Record ContextPatch := {
  patch_customerId : option (option string);
  patch_customerName : option (option string);
  patch_language : option (option string);
  patch_conversationHistory : option (option (list ConversationMessage));
  patch_currentProducts : option (option (list ProductContext));
  patch_cartItems : option (option (list CartContext));
  patch_funnelStage : option (option string);
}.

(** [{...c, ...p}] *)
Definition spreadContext (c : AssistantContext) (p : ContextPatch)
  : AssistantContext :=
  {| ctx_customerId := default (ctx_customerId c) (patch_customerId p);
     ctx_customerName := default (ctx_customerName c) (patch_customerName p);
     ctx_language := default (ctx_language c) (patch_language p);
     ctx_conversationHistory :=
       default (ctx_conversationHistory c) (patch_conversationHistory p);
     ctx_currentProducts :=
       default (ctx_currentProducts c) (patch_currentProducts p);
     ctx_cartItems := default (ctx_cartItems c) (patch_cartItems p);
     ctx_funnelStage := default (ctx_funnelStage c) (patch_funnelStage p) |}.

Definition updateSessionContext (id : string) (patch : ContextPatch)
  : Js unit :=
  session ← getVoiceSession id;
  match session with
  | None => throw SessionNotFoundError
  | Some s => docUpdate id (setContext (spreadContext (context s) patch))
  end.

(** [clockDuration] and [clockEnd] are the two readings of the clock the
    function takes, in that order. *)
Definition endVoiceSession (id : string) (score : option Z)
    (clockDuration clockEnd : Z) : Js unit :=
  session ← getVoiceSession id;
  match session with
  | None => mret tt
  | Some s =>
      let duration := ((clockDuration - startTime s) / 1000)%Z in
      docUpdate id (fun d =>
        let d1 := setStatus completed d in
        let d2 := setEndTime (Some clockEnd) d1 in
        let d3 := setTotalDuration duration d2 in
        match score with
        | Some z => if (z =? 0)%Z then d3 else setSatisfactionScore z d3
        | None => d3
        end)
  end.

(** [productsDiscussed.includes(productId)] *)
Definition includes (l : list string) (x : string) : bool :=
  bool_decide (x ∈ l).

Definition trackProductDiscussion (id productId : string) : Js unit :=
  session ← getVoiceSession id;
  match session with
  | None => mret tt
  | Some s =>
      let discussed := productsDiscussed (analytics s) in
      if includes discussed productId then mret tt
      else docUpdate id (setProductsDiscussed (discussed ++ [productId]))
  end.

Definition trackConversionAttempt (id : string) : Js unit :=
  session ← getVoiceSession id;
  match session with
  | None => mret tt
  | Some s =>
      docUpdate id
        (setConversionsAttempted (conversionsAttempted (analytics s) + 1))
  end.

Definition pauseVoiceSession (id : string) : Js unit :=
  docUpdate id (setStatus paused).

Definition resumeVoiceSession (id : string) : Js unit :=
  docUpdate id (setStatus active).

(** The query of [cleanupAbandonedSessions]:
    [status == 'active'] and [startTime < oneHourAgo]. *)
Definition isStale (oneHourAgo : Z) (s : VoiceSession) : bool :=
  bool_decide (status s = active) && (startTime s <? oneHourAgo)%Z.

(** [now] is [Date.now()]. The batch updates every document of the
    snapshot; the function returns the size of the snapshot. *)
Definition cleanupAbandonedSessions (now : Z) : Js Z :=
  fun σ =>
    let oneHourAgo := (now - 60 * 60 * 1000)%Z in
    let snapshot := filter (fun kv => isStale oneHourAgo kv.2 = true) σ in
    (Returned (Z.of_nat (size snapshot)),
     (fun s => if isStale oneHourAgo s then setStatus abandoned s else s) <$> σ).

(* ===================================================================== *)
(** * generateAssistantResponse *)
(* ===================================================================== *)

(** What the [try] block of [generateAssistantResponse] met:
    [startChat] or [sendMessage] threw, or [sendMessage] returned a
    response whose first candidate may carry a text and whose usage
    metadata may carry a token count. The model client itself
    ([getModel()], outside the [try]) is taken to be available. *)
Inductive ModelOutcome :=
  | ModelThrows
  | ModelReplies (candidateText : option string) (totalTokenCount : option Z).

Record AssistantResponse := {
  text : string;
  intent : Intent;
  confidence : QArith_base.Q;
  suggestedActions : option (list Action);
  tokensUsed : option Z;
}.

Definition apology : string :=
  "I'm having trouble processing that right now. Could you try asking in a different way?".

Definition generateAssistantResponse (userInput : string)
    (context : AssistantContext) (model : ModelOutcome) : AssistantResponse :=
  match model with
  | ModelReplies candidateText totalTokenCount =>
      let responseText := orString candidateText EmptyString in
      let intent := detectIntent userInput responseText in
      let suggestedActions := extractActions responseText intent context in
      {| text := responseText;
         intent := intent;
         confidence := QArith_base.Qmake 85 100;
         suggestedActions := Some suggestedActions;
         tokensUsed := totalTokenCount |}
  | ModelThrows =>
      {| text := apology;
         intent := unknown;
         confidence := QArith_base.Qmake 0 1;
         suggestedActions := None;
         tokensUsed := None |}
  end.

(* ===================================================================== *)
(** * POST /api/voice/process-audio *)
(* ===================================================================== *)

(** A JSON response: the body of a success, or a status and an error. *)
Inductive Response (A : Type) :=
  | Json (body : A)
  | JsonError (httpStatus : Z) (error : string).
Arguments Json {A} body.
Arguments JsonError {A} httpStatus error.

Record TranscriptionResult := {
  transcript : string;
  transcript_confidence : QArith_base.Q;
}.

(** The customer the customer-account query returned, with the cart
    lines already in the shape [buildAssistantContext] maps them to. *)
Record CustomerData := {
  firstName : option string;
  cart : option (list CartContext);
}.

(** The multipart form of the request. *)
Record TurnRequest := {
  req_method : string;
  req_audio : option (list ascii);
  req_sessionId : option string;
  req_language : option string;
}.

(** What the outside world answers during one turn. The transcription
    is what [transcribeAudio] did with the clip and the language code
    [languageCode || session.language]. *)
Record TurnEnv := {
  env_transcription : Outcome TranscriptionResult;
  env_customerQuery : Outcome (option CustomerData);
  env_model : ModelOutcome;
  env_clockUser : Z;        (* timestamp of the user message *)
  env_clockAssistant : Z;   (* timestamp of the assistant message *)
}.

Record TurnResult := {
  result_transcript : string;
  result_confidence : QArith_base.Q;
  result_text : string;
  result_intent : Intent;
  result_actions : option (list Action);
  result_tokensUsed : option Z;
}.

Definition buildAssistantContext (session : VoiceSession)
    (query : Outcome (option CustomerData)) : AssistantContext :=
  let customer :=
    if truthyString (customerId session) then
      match query with
      | Returned (Some c) => Some c
      | _ => None
      end
    else None in
  {| ctx_customerId := customerId session;
     ctx_customerName := c ← customer; firstName c;
     ctx_language := Some (language session);
     ctx_conversationHistory := Some (conversationHistory session);
     ctx_currentProducts := None;
     ctx_cartItems := c ← customer; cart c;
     ctx_funnelStage := ctx_funnelStage (context session) |}.

Definition funnelPatch (stage : option string) : ContextPatch :=
  {| patch_customerId := None; patch_customerName := None;
     patch_language := None; patch_conversationHistory := None;
     patch_currentProducts := None; patch_cartItems := None;
     patch_funnelStage := Some stage |}.

(** The body of the loop of [processSuggestedActions]: the [switch].
    [action.data.productId] and [action.data.stage] throw when [data]
    is [undefined]. *)
Definition handleAction (id : string) (action : Action) : Js unit :=
  if String.eqb (type action) "add_to_cart" then
    match data action with
    | None => throw TypeError
    | Some d =>
        match data_productId d with
        | Some (String _ _ as productId) => trackProductDiscussion id productId
        | _ => mret tt
        end
    end
  else if String.eqb (type action) "search_products" then
    mret tt
  else if String.eqb (type action) "navigate_funnel" then
    match data action with
    | None => throw TypeError
    | Some d => updateSessionContext id (funnelPatch (data_stage d))
    end
  else mret tt.

Fixpoint processSuggestedActions (id : string) (actions : list Action)
  : Js unit :=
  match actions with
  | [] => mret tt
  | action :: rest =>
      handleAction id action ;; processSuggestedActions id rest
  end.

Definition userMessage (content : string) (t : Z) : ConversationMessage :=
  {| role := true; content := content; timestamp := t |}.

Definition assistantMessage (content : string) (t : Z) : ConversationMessage :=
  {| role := false; content := content; timestamp := t |}.

(** The [try] block of the action. The webhook at its end is wrapped in
    its own [try]/[catch], neither reads nor writes the collection, and
    its result is dropped: it does not appear. *)
Definition processAudioTry (env : TurnEnv) (req : TurnRequest)
  : Js (Response TurnResult) :=
  match req_audio req, req_sessionId req with
  | Some _, Some (String _ _ as id) =>
      found ← getVoiceSession id;
      match found with
      | None => mret (JsonError 404 "Session not found")
      | Some session =>
          transcription ← await (env_transcription env);
          match transcript transcription with
          | EmptyString => mret (JsonError 400 "Could not transcribe audio")
          | String _ _ as spoken =>
              addMessageToSession id
                (userMessage spoken (env_clockUser env)) None ;;
              let assistantContext :=
                buildAssistantContext session (env_customerQuery env) in
              let aiResponse :=
                generateAssistantResponse spoken assistantContext (env_model env) in
              addMessageToSession id
                (assistantMessage (text aiResponse) (env_clockAssistant env))
                (Some (intentName (intent aiResponse))) ;;
              processSuggestedActions id
                (default [] (suggestedActions aiResponse)) ;;
              (if bool_decide (intent aiResponse = add_to_cart)
                  || bool_decide (intent aiResponse = checkout)
               then trackConversionAttempt id else mret tt) ;;
              mret (Json
                {| result_transcript := spoken;
                   result_confidence := transcript_confidence transcription;
                   result_text := text aiResponse;
                   result_intent := intent aiResponse;
                   result_actions := suggestedActions aiResponse;
                   result_tokensUsed := tokensUsed aiResponse |})
          end
      end
  | _, _ => mret (JsonError 400 "Missing audio or sessionId")
  end.

(** [action] of [api.voice.process-audio.tsx]: the spec's [processTurn]. *)
Definition processAudio (env : TurnEnv) (req : TurnRequest)
  : Store -> Response TurnResult * Store :=
  fun σ =>
    if negb (String.eqb (req_method req) "POST")
    then (JsonError 405 "Method not allowed", σ)
    else match processAudioTry env req σ with
         | (Returned r, σ') => (r, σ')
         | (Thrown _, σ') => (JsonError 500 "Failed to process audio", σ')
         end.

(* ===================================================================== *)
(** * POST /api/voice/end-session *)
(* ===================================================================== *)

Record EndRequest := {
  end_method : string;
  end_sessionId : option string;
  end_satisfactionScore : option Z;
}.

(** [summarizeConversation] returns a summary or throws; the two clock
    readings are those of [endVoiceSession]. *)
Record EndEnv := {
  env_summary : Outcome string;
  env_clockDuration : Z;
  env_clockEnd : Z;
}.

(** The [analytics] object of the response. *)
Record AnalyticsSnapshot := {
  snap_totalMessages : Z;
  snap_intents : gmap string Z;
  snap_productsDiscussed : list string;
  snap_conversionsAttempted : Z;
}.

Record EndResult := {
  end_summary : option string;
  end_analytics : AnalyticsSnapshot;
}.

Definition snapshotOf (session : VoiceSession) : AnalyticsSnapshot :=
  {| snap_totalMessages := totalMessages (metadata session);
     snap_intents := intents (analytics session);
     snap_productsDiscussed := productsDiscussed (analytics session);
     snap_conversionsAttempted := conversionsAttempted (analytics session) |}.

Definition endSessionTry (env : EndEnv) (req : EndRequest)
  : Js (Response EndResult) :=
  match end_sessionId req with
  | Some (String _ _ as id) =>
      found ← getVoiceSession id;
      match found with
      | None => mret (JsonError 404 "Session not found")
      | Some session =>
          summary ←
            (if (0 <? length (conversationHistory session))%nat then
               tryCatch (s ← await (env_summary env); mret (Some s))
                        (fun _ => mret None)
             else mret None);
          endVoiceSession id (end_satisfactionScore req)
            (env_clockDuration env) (env_clockEnd env) ;;
          mret (Json {| end_summary := summary;
                        end_analytics := snapshotOf session |})
      end
  | _ => mret (JsonError 400 "Missing sessionId")
  end.

(** [action] of [api.voice.end-session.tsx]: the spec's [end-session]. *)
Definition endSession (env : EndEnv) (req : EndRequest)
  : Store -> Response EndResult * Store :=
  fun σ =>
    if negb (String.eqb (end_method req) "POST")
    then (JsonError 405 "Method not allowed", σ)
    else match endSessionTry env req σ with
         | (Returned r, σ') => (r, σ')
         | (Thrown _, σ') => (JsonError 500 "Failed to end voice session", σ')
         end.

(* ===================================================================== *)
(** * Writes as the Firestore client validates them *)
(* ===================================================================== *)

(** The client the service builds has the default settings: [set] and
    [update] refuse data in which a property holds [undefined], and
    write nothing then. The definitions of this module are those of the
    session service and of the process-audio route with that refusal
    in; whatever writes no [undefined] is as above. The end-session
    route is given here with the parsing of its body. *)
Module Strict.

(** The key is absent, or present with a value. *)
Definition definedKey {A} (key : option (option A)) : bool :=
  match key with
  | Some None => false
  | _ => true
  end.

(** No key of the patch holds [undefined]. *)
Definition storablePatch (p : ContextPatch) : bool :=
  definedKey (patch_customerId p) && definedKey (patch_customerName p)
  && definedKey (patch_language p) && definedKey (patch_conversationHistory p)
  && definedKey (patch_currentProducts p) && definedKey (patch_cartItems p)
  && definedKey (patch_funnelStage p).

(** [updateSessionContext]: the stored context holds no [undefined], so
    the spread holds one exactly when the patch does. *)
Definition updateSessionContext (id : string) (patch : ContextPatch)
  : Js unit :=
  session ← getVoiceSession id;
  match session with
  | None => throw SessionNotFoundError
  | Some s =>
      if storablePatch patch
      then docUpdate id (setContext (spreadContext (context s) patch))
      else throw InvalidValue
  end.

(** [createVoiceSession]: the session literal holds [data.customerId]
    (twice), [data.userAgent] and [data.ipAddress] as they come. *)
Definition createVoiceSession (newId : string) (now : Z) (data : SessionInit)
  : Js VoiceSession :=
  let session := freshSession newId now data in
  match init_customerId data, init_userAgent data, init_ipAddress data with
  | Some _, Some _, Some _ =>
      docSet (sessionId session) session ;; mret session
  | _, _, _ => throw InvalidValue
  end.

(** The [switch] of [processSuggestedActions]. *)
Definition handleAction (id : string) (action : Action) : Js unit :=
  if String.eqb (type action) "add_to_cart" then
    match data action with
    | None => throw TypeError
    | Some d =>
        match data_productId d with
        | Some (String _ _ as productId) => trackProductDiscussion id productId
        | _ => mret tt
        end
    end
  else if String.eqb (type action) "search_products" then
    mret tt
  else if String.eqb (type action) "navigate_funnel" then
    match data action with
    | None => throw TypeError
    | Some d => updateSessionContext id (funnelPatch (data_stage d))
    end
  else mret tt.

Fixpoint processSuggestedActions (id : string) (actions : list Action)
  : Js unit :=
  match actions with
  | [] => mret tt
  | action :: rest =>
      handleAction id action ;; processSuggestedActions id rest
  end.

(** The [try] block of the process-audio action. *)
Definition processAudioTry (env : TurnEnv) (req : TurnRequest)
  : Js (Response TurnResult) :=
  match req_audio req, req_sessionId req with
  | Some _, Some (String _ _ as id) =>
      found ← getVoiceSession id;
      match found with
      | None => mret (JsonError 404 "Session not found")
      | Some session =>
          transcription ← await (env_transcription env);
          match transcript transcription with
          | EmptyString => mret (JsonError 400 "Could not transcribe audio")
          | String _ _ as spoken =>
              addMessageToSession id
                (userMessage spoken (env_clockUser env)) None ;;
              let assistantContext :=
                buildAssistantContext session (env_customerQuery env) in
              let aiResponse :=
                generateAssistantResponse spoken assistantContext (env_model env) in
              addMessageToSession id
                (assistantMessage (text aiResponse) (env_clockAssistant env))
                (Some (intentName (intent aiResponse))) ;;
              processSuggestedActions id
                (default [] (suggestedActions aiResponse)) ;;
              (if bool_decide (intent aiResponse = add_to_cart)
                  || bool_decide (intent aiResponse = checkout)
               then trackConversionAttempt id else mret tt) ;;
              mret (Json
                {| result_transcript := spoken;
                   result_confidence := transcript_confidence transcription;
                   result_text := text aiResponse;
                   result_intent := intent aiResponse;
                   result_actions := suggestedActions aiResponse;
                   result_tokensUsed := tokensUsed aiResponse |})
          end
      end
  | _, _ => mret (JsonError 400 "Missing audio or sessionId")
  end.

(** [action] of [api.voice.process-audio.tsx]. *)
Definition processAudio (env : TurnEnv) (req : TurnRequest)
  : Store -> Response TurnResult * Store :=
  fun σ =>
    if negb (String.eqb (req_method req) "POST")
    then (JsonError 405 "Method not allowed", σ)
    else match processAudioTry env req σ with
         | (Returned r, σ') => (r, σ')
         | (Thrown _, σ') => (JsonError 500 "Failed to process audio", σ')
         end.

(** The end-session request as it arrives: [post_body] is what
    [request.json()] does, which throws on a body that is not JSON. *)
Record EndBody := {
  body_sessionId : option string;
  body_satisfactionScore : option Z;
}.

Record EndPost := {
  post_method : string;
  post_body : Outcome EndBody;
}.

(** The [try] block of the end-session action. *)
Definition endSessionTry (env : EndEnv) (req : EndPost)
  : Js (Response EndResult) :=
  body ← await (post_body req);
  match body_sessionId body with
  | Some (String _ _ as id) =>
      found ← getVoiceSession id;
      match found with
      | None => mret (JsonError 404 "Session not found")
      | Some session =>
          summary ←
            (if (0 <? length (conversationHistory session))%nat then
               tryCatch (s ← await (env_summary env); mret (Some s))
                        (fun _ => mret None)
             else mret None);
          endVoiceSession id (body_satisfactionScore body)
            (env_clockDuration env) (env_clockEnd env) ;;
          mret (Json {| end_summary := summary;
                        end_analytics := snapshotOf session |})
      end
  | _ => mret (JsonError 400 "Missing sessionId")
  end.

(** [action] of [api.voice.end-session.tsx]. *)
Definition endSession (env : EndEnv) (req : EndPost)
  : Store -> Response EndResult * Store :=
  fun σ =>
    if negb (String.eqb (post_method req) "POST")
    then (JsonError 405 "Method not allowed", σ)
    else match endSessionTry env req σ with
         | (Returned r, σ') => (r, σ')
         | (Thrown _, σ') => (JsonError 500 "Failed to end voice session", σ')
         end.

End Strict.

(* ===================================================================== *)
(** * transcribeAudio: speech-to-text.service *)
(* ===================================================================== *)

(** What [client.recognize] answers: a list of results, each with a
    list of alternatives; any of the levels may be missing. *)
Record SpeechAlternative := {
  alt_transcript : option string;
  alt_confidence : option QArith_base.Q;
}.

Record SpeechResult := { alternatives : option (list SpeechAlternative) }.

Record RecognizeResponse := { results : option (list SpeechResult) }.

(** The result of [transcribeAudio]: the two fields the route reads,
    and the language code. *)
Record SpeechTranscription := {
  spoken : TranscriptionResult;
  spoken_languageCode : string;
}.

(** [xs?.[0]] *)
Definition firstOf {A} (xs : option (list A)) : option A :=
  match xs with
  | Some (x :: _) => Some x
  | _ => None
  end.

(** [result.alternatives?.[0]?.transcript] *)
Definition firstTranscript (r : SpeechResult) : option string :=
  match firstOf (alternatives r) with
  | Some a => alt_transcript a
  | None => None
  end.

(** [response.results?.[0]?.alternatives?.[0]?.confidence] *)
Definition firstConfidence (response : RecognizeResponse)
  : option QArith_base.Q :=
  match firstOf (results response) with
  | Some r =>
      match firstOf (alternatives r) with
      | Some a => alt_confidence a
      | None => None
      end
  | None => None
  end.

Definition newline : string := String (ascii_of_N 10) EmptyString.

(** [Array.prototype.join]: a missing element is rendered as the empty
    string. *)
Fixpoint joinLines (l : list (option string)) : string :=
  match l with
  | [] => EmptyString
  | [x] => default EmptyString x
  | x :: rest =>
      String.append (default EmptyString x)
        (String.append newline (joinLines rest))
  end.

(** [transcribeAudio(audioBuffer, config)]: [languageCode] is
    [config.languageCode] and [recognize] what the speech client did
    with the request. *)
Definition transcribeAudio (languageCode : option string)
    (recognize : Outcome RecognizeResponse) : Outcome SpeechTranscription :=
  match recognize with
  | Returned response =>
      let transcription :=
        match results response with
        | Some rs => joinLines (map firstTranscript rs)
        | None => EmptyString
        end in
      let confidence :=
        default (QArith_base.Qmake 0 1) (firstConfidence response) in
      Returned {| spoken := {| transcript := transcription;
                               transcript_confidence := confidence |};
                  spoken_languageCode := orString languageCode "en-US" |}
  | Thrown _ => Thrown TranscribeFailed
  end.

(** The call of the process-audio route:
    [languageCode: languageCode || session.language]. *)
Definition transcribeForTurn (req : TurnRequest) (session : VoiceSession)
    (recognize : Outcome RecognizeResponse) : Outcome TranscriptionResult :=
  match transcribeAudio
          (Some (orString (req_language req) (language session))) recognize with
  | Returned t => Returned (spoken t)
  | Thrown e => Thrown e
  end.

(* ===================================================================== *)
(** * triggerWebhook: the webhook utilities *)
(* ===================================================================== *)

(** A PostgreSQL pool as [triggerWebhook] uses it: what [connect],
    [query] and [release] do. *)
Record PgPool := {
  pg_connect : Outcome unit;
  pg_query : Outcome unit;
  pg_release : Outcome unit;
}.

Record FetchResponse := {
  fetch_ok : bool;
  fetch_status : Z;
  fetch_statusText : string;
}.

(** What [result.error] tells: the webhook answered with a bad status,
    or making the call threw. *)
Inductive WebhookFailure :=
  | BadStatus (status : Z) (statusText : string)
  | CallThrew (e : Exn).

Record WebhookResult := {
  wh_success : bool;
  webhookCalled : bool;
  logged : bool;
  wh_error : option WebhookFailure;
}.

(** [payloadJson] is what [JSON.stringify(payload)] does, [fetched]
    what [fetch] does. A throw of [release] in the [finally] lands in
    the outer [catch] after [logged] was set. *)
Definition triggerWebhook (webhookUrl : option string)
    (payloadJson : Outcome string) (postgres : option PgPool)
    (logTable : option string) (fetched : Outcome FetchResponse)
  : WebhookResult :=
  let wasLogged :=
    match postgres with
    | Some pool =>
        if truthyString logTable then
          match pg_connect pool, payloadJson, pg_query pool with
          | Returned _, Returned _, Returned _ => true
          | _, _, _ => false
          end
        else false
    | None => false
    end in
  if truthyString webhookUrl then
    match payloadJson, fetched with
    | Returned _, Returned response =>
        if fetch_ok response then
          {| wh_success := true; webhookCalled := true;
             logged := wasLogged; wh_error := None |}
        else
          {| wh_success := wasLogged; webhookCalled := false;
             logged := wasLogged;
             wh_error := Some (BadStatus (fetch_status response)
                                         (fetch_statusText response)) |}
    | Thrown e, _ | Returned _, Thrown e =>
        {| wh_success := wasLogged; webhookCalled := false;
           logged := wasLogged; wh_error := Some (CallThrew e) |}
    end
  else
    {| wh_success := wasLogged; webhookCalled := false;
       logged := wasLogged; wh_error := None |}.

(* ===================================================================== *)
(** * POST /api/voice/start-session *)
(* ===================================================================== *)

Record CustomerProfile := {
  profile_id : string;
  profile_firstName : option string;
  profile_lastName : option string;
}.

(** The answer of the customer-account query: [data?.customer] and
    whether [errors] is set. *)
Record CustomerAnswer := {
  answer_customer : option CustomerProfile;
  answer_errors : bool;
}.

(** The JSON body of the request. *)
Record StartBody := {
  body_language : option string;
  body_deviceType : option DeviceType;
}.

(** [start_body] is what [request.json()] does: it throws on a body
    that is not JSON. *)
Record StartRequest := {
  start_method : string;
  start_body : Outcome StartBody;
  start_userAgent : option string;       (* header user-agent *)
  start_forwardedFor : option string;    (* header x-forwarded-for *)
}.

Record StartEnv := {
  start_customerQuery : Outcome CustomerAnswer;
  start_newId : string;                  (* generateSessionId() *)
  start_clock : Z;
}.

Record StartResult := {
  started_sessionId : string;
  started_language : string;
  started_customerId : option string;
  started_customerName : option string;
}.

(** A template placeholder holding a nullable string. *)
Definition interpolate (s : option string) : string := default "null"%string s.

Definition isSpace (c : ascii) : bool :=
  let n := N_of_ascii c in ((9 <=? n) && (n <=? 13) || (n =? 32))%N.

Fixpoint trimStart (s : list ascii) : list ascii :=
  match s with
  | c :: s' => if isSpace c then trimStart s' else s
  | [] => []
  end.

(** [String.prototype.trim] *)
Definition trim (s : string) : string :=
  string_of_list_ascii
    (rev (trimStart (rev (trimStart (list_ascii_of_string s))))).

(** [header.split(',')[0]] *)
Fixpoint firstField (s : list ascii) : list ascii :=
  match s with
  | c :: s' => if Ascii.eqb c ","%char then [] else c :: firstField s'
  | [] => []
  end.

(** [value || undefined] on an optional string. *)
Definition orUndefined (s : option string) : option string :=
  if truthyString s then s else None.

(** [data.ipAddress] of the route. *)
Definition forwardedAddress (header : option string) : option string :=
  orUndefined
    ((fun h => string_of_list_ascii (firstField (list_ascii_of_string h)))
     <$> header).

Definition startSessionTry (env : StartEnv) (req : StartRequest)
  : Js (Response StartResult) :=
  body ← await (start_body req);
  let customer :=
    match start_customerQuery env with
    | Returned answer =>
        if answer_errors answer then None else answer_customer answer
    | Thrown _ => None
    end in
  let id := profile_id <$> customer in
  let name :=
    (fun c => trim (String.append (interpolate (profile_firstName c))
                      (String.append " " (interpolate (profile_lastName c)))))
    <$> customer in
  session ← Strict.createVoiceSession (start_newId env) (start_clock env)
    {| init_customerId := id;
       init_language := Some (orString (body_language body) "en-US");
       init_deviceType := default web (body_deviceType body);
       init_userAgent := orUndefined (start_userAgent req);
       init_ipAddress := forwardedAddress (start_forwardedFor req) |};
  mret (Json {| started_sessionId := sessionId session;
                started_language := language session;
                started_customerId := customerId session;
                started_customerName := name |}).

(** [action] of [api.voice.start-session.tsx]; its webhook call is in a
    [try]/[catch] of its own and does not touch the collection. The
    session is created through the validating [set]. *)
Definition startSession (env : StartEnv) (req : StartRequest)
  : Store -> Response StartResult * Store :=
  fun σ =>
    if negb (String.eqb (start_method req) "POST")
    then (JsonError 405 "Method not allowed", σ)
    else match startSessionTry env req σ with
         | (Returned r, σ') => (r, σ')
         | (Thrown _, σ') => (JsonError 500 "Failed to start voice session", σ')
         end.

(* ===================================================================== *)
(** * POST /api/voice/add-to-cart *)
(* ===================================================================== *)

Record AddToCartRequest := {
  atc_method : string;
  atc_sessionId : option string;
  atc_productId : option string;
  atc_variantId : option string;
  atc_quantity : option Z;
}.

(** The answer of [context.cart.addLines]: [data?.cart] and [errors]. *)
Record AddLinesAnswer := {
  lines_cart : option string;
  lines_errors : option (list string);
}.

(** [atc_addLines merchandiseId quantity] is what the cart does with
    the one line the route sends. *)
Record AddToCartEnv := {
  atc_isLoggedIn : Outcome bool;
  atc_addLines : string -> Z -> Outcome AddLinesAnswer;
}.

Record AddToCartResult := {
  added_cart : option string;
  added_message : string;
}.

Definition addToCartTry (env : AddToCartEnv) (req : AddToCartRequest)
  : Js (Response AddToCartResult) :=
  match atc_variantId req with
  | Some (String _ _ as variantId) =>
      isLoggedIn ← await (atc_isLoggedIn env);
      if negb isLoggedIn then mret (JsonError 401 "Authentication required")
      else
        answer ← await (atc_addLines env variantId
                          (default 1%Z (atc_quantity req)));
        match lines_errors answer with
        | Some (_ :: _) => mret (JsonError 400 "Failed to add item to cart")
        | _ =>
            match atc_sessionId req with
            | Some (String _ _ as id) =>
                tryCatch (trackConversionAttempt id) (fun _ => mret tt)
            | _ => mret tt
            end ;;
            mret (Json {| added_cart := lines_cart answer;
                          added_message := "Item added to cart successfully" |})
        end
  | _ => mret (JsonError 400 "Missing variantId")
  end.

(** [action] of the voice add-to-cart route. *)
Definition addToCart (env : AddToCartEnv) (req : AddToCartRequest)
  : Store -> Response AddToCartResult * Store :=
  fun σ =>
    if negb (String.eqb (atc_method req) "POST")
    then (JsonError 405 "Method not allowed", σ)
    else match addToCartTry env req σ with
         | (Returned r, σ') => (r, σ')
         | (Thrown _, σ') => (JsonError 500 "Failed to add item to cart", σ')
         end.

(* ===================================================================== *)
(** * summarizeConversation *)
(* ===================================================================== *)

Definition isOpenBrace (c : ascii) : bool := (N_of_ascii c =? 123)%N.
Definition isCloseBrace (c : ascii) : bool := (N_of_ascii c =? 125)%N.

(** The text from the first opening brace on. *)
Fixpoint fromFirstOpen (s : list ascii) : option (list ascii) :=
  match s with
  | [] => None
  | c :: s' => if isOpenBrace c then Some s else fromFirstOpen s'
  end.

(** The longest prefix that ends with a closing brace. *)
Fixpoint upToLastClose (s : list ascii) : option (list ascii) :=
  match s with
  | [] => None
  | c :: s' =>
      match upToLastClose s' with
      | Some p => Some (c :: p)
      | None => if isCloseBrace c then Some [c] else None
      end
  end.

(** [response.match(/\{[\s\S]*\}/)]: the leftmost match starts at the
    first opening brace, and the greedy body runs to the last closing
    brace behind it; [None] when [match] returns [null]. *)
Definition jsonSpan (s : list ascii) : option (list ascii) :=
  match fromFirstOpen s with
  | Some (open :: rest) =>
      match upToLastClose rest with
      | Some body => Some (open :: body)
      | None => None
      end
  | _ => None
  end.

Record ConversationSummary := {
  summary_text : string;
  summary_keyTopics : list string;
  summary_outcome : string;
}.

Section Summarize.
(** [JSON.parse], whose value the function returns as it is. *)
Variable parse : string -> Outcome ConversationSummary.

(** [summarizeConversation(conversationHistory)]; [model] is what
    [model.generateContent(prompt)] did. *)
Definition summarizeConversation (model : ModelOutcome) : ConversationSummary :=
  match model with
  | ModelReplies candidateText _ =>
      let response := orString candidateText EmptyString in
      match jsonSpan (list_ascii_of_string response) with
      | Some jsonMatch =>
          match parse (string_of_list_ascii jsonMatch) with
          | Returned parsed => parsed
          | Thrown _ =>
              {| summary_text := "Error summarizing conversation";
                 summary_keyTopics := []; summary_outcome := "Unknown" |}
          end
      | None =>
          {| summary_text := "Conversation summary unavailable";
             summary_keyTopics := []; summary_outcome := "Unknown" |}
      end
  | ModelThrows =>
      {| summary_text := "Error summarizing conversation";
         summary_keyTopics := []; summary_outcome := "Unknown" |}
  end.
End Summarize.

(* ===================================================================== *)
(** * Properties the specification speaks of *)
(* ===================================================================== *)



(** The terminal states of the specification's state machine. *)
Definition isTerminal (st : Status) : bool :=
  match st with
  | completed | abandoned => true
  | active | paused => false
  end.

(** The utterance alone settles the intent: one of the first four rules
    of [detectIntent] fires, or the utterance half of the fifth. *)
Definition utteranceDecides (userInput : string) : bool :=
  let input := JsString.toLowerCase userInput in
  (JsString.matchWords searchVerbs input && JsString.matchWords searchNouns input)
  || (JsString.matchWords cartVerbs input && JsString.matchWords cartNouns input)
  || JsString.matchWords checkoutWords input
  || (JsString.matchWords orderNouns input && JsString.matchWords orderQuestions input)
  || JsString.matchWords funnelInputWords input.

(** The reply half of the fifth rule: the reply has one of the words
    step, stage, funnel. *)
Definition replyNamesFunnel (responseText : string) : bool :=
  JsString.matchWords funnelResponseWords (JsString.toLowerCase responseText).

(** A session after [addMessageToSession] appended [message] with
    [intent] to it. *)
Definition appended (message : ConversationMessage) (intent : option string)
    (s : VoiceSession) : VoiceSession :=
  let d := setTotalMessages (totalMessages (metadata s) + 1)
             (setConversationHistory (conversationHistory s ++ [message]) s) in
  match intent with
  | Some (String _ _ as name) => setAnalytics (countIntent (analytics s) name) d
  | _ => d
  end.

(** A session after [endVoiceSession]. *)
Definition ended (score : option Z) (clockDuration clockEnd : Z)
    (s : VoiceSession) : VoiceSession :=
  let d := setTotalDuration ((clockDuration - startTime s) / 1000)
             (setEndTime (Some clockEnd) (setStatus completed s)) in
  match score with
  | Some z => if (z =? 0)%Z then d else setSatisfactionScore z d
  | None => d
  end.

(** What a turn leaves alone once both messages are in: the later steps
    (dispatch, conversion tracking) keep history, metadata, lifecycle
    fields and the intent counters. *)
Definition keepsTurns (s s' : VoiceSession) : Prop :=
  conversationHistory s' = conversationHistory s
  ∧ metadata s' = metadata s
  ∧ status s' = status s
  ∧ intents (analytics s') = intents (analytics s).

(** The request names the session [id] and carries an audio clip. *)
Definition turnFor (req : TurnRequest) (id : string) : Prop :=
  req_method req = "POST"%string
  ∧ is_Some (req_audio req)
  ∧ req_sessionId req = Some id
  ∧ id ≠ EmptyString.

(** The request names the session [id]. *)
Definition endFor (req : EndRequest) (id : string) : Prop :=
  end_method req = "POST"%string
  ∧ end_sessionId req = Some id
  ∧ id ≠ EmptyString.

(** ** Sample data for the concrete runs *)

Definition guest : SessionInit :=
  {| init_customerId := None; init_language := Some "en-US"%string;
     init_deviceType := web; init_userAgent := None; init_ipAddress := None |}.

(** A guest session created at instant 1000. *)
Definition sampleSession : VoiceSession := freshSession "voice_1" 1000 guest.

(** The same session once ended at instant 5000, without a score. *)
Definition finishedSession : VoiceSession := ended None 5000 5000 sampleSession.

(** The same session once swept. *)
Definition sweptSession : VoiceSession := setStatus abandoned sampleSession.

Definition postAudio (id : string) : TurnRequest :=
  {| req_method := "POST"; req_audio := Some [];
     req_sessionId := Some id; req_language := None |}.

Definition postEnd (id : string) (score : option Z) : EndRequest :=
  {| end_method := "POST"; end_sessionId := Some id;
     end_satisfactionScore := score |}.

(** The transcriber hears [utterance]; the model does [model]. *)
Definition hearing (utterance : string) (model : ModelOutcome) : TurnEnv :=
  {| env_transcription :=
       Returned {| transcript := utterance;
                   transcript_confidence := QArith_base.Qmake 9 10 |};
     env_customerQuery := Thrown CollaboratorFailed;
     env_model := model;
     env_clockUser := 2000;
     env_clockAssistant := 3000 |}.

Definition endingAt (t : Z) : EndEnv :=
  {| env_summary := Returned "summary"%string;
     env_clockDuration := t; env_clockEnd := t |}.

Definition cartAction (d : option ActionData) : Action :=
  {| type := "add_to_cart"; data := d |}.

Definition productData (productId : string) : ActionData :=
  {| data_query := None; data_productId := Some productId;
     data_direction := None; data_customerId := None; data_stage := None |}.

Definition funnelAction (stage : option string) : Action :=
  {| type := "navigate_funnel";
     data := Some {| data_query := None; data_productId := None;
                     data_direction := None; data_customerId := None;
                     data_stage := stage |} |}.

Definition searchAction (query : string) : Action :=
  {| type := "search_products";
     data := Some {| data_query := Some query; data_productId := None;
                     data_direction := None; data_customerId := None;
                     data_stage := None |} |}.

(** ** What a turn writes *)

(** The reply of the engine during a turn on session [s]. *)
Definition turnReply (env : TurnEnv) (tr : TranscriptionResult)
    (s : VoiceSession) : AssistantResponse :=
  generateAssistantResponse (transcript tr)
    (buildAssistantContext s (env_customerQuery env)) (env_model env).

(** A session after a whole turn: the two appends, the dispatch of the
    suggested actions (of which only the funnel action writes) and the
    conversion tracking. *)
Definition afterTurn (env : TurnEnv) (tr : TranscriptionResult)
    (s : VoiceSession) : VoiceSession :=
  let ai := turnReply env tr s in
  let s2 :=
    appended (assistantMessage (text ai) (env_clockAssistant env))
             (Some (intentName (intent ai)))
      (appended (userMessage (transcript tr) (env_clockUser env)) None s) in
  let s3 :=
    if bool_decide (intent ai = funnel_navigation)
    then setContext (spreadContext (context s2) (funnelPatch None)) s2
    else s2 in
  if bool_decide (intent ai = add_to_cart) || bool_decide (intent ai = checkout)
  then setConversionsAttempted (conversionsAttempted (analytics s3) + 1) s3
  else s3.




(** A patch with no key. *)
Definition emptyPatch : ContextPatch :=
  {| patch_customerId := None; patch_customerName := None;
     patch_language := None; patch_conversationHistory := None;
     patch_currentProducts := None; patch_cartItems := None;
     patch_funnelStage := None |}.

(** [{...p, ...q}] on two patches. *)
Definition spreadPatch (p q : ContextPatch) : ContextPatch :=
  {| patch_customerId :=
       match patch_customerId q with Some v => Some v | None => patch_customerId p end;
     patch_customerName :=
       match patch_customerName q with Some v => Some v | None => patch_customerName p end;
     patch_language :=
       match patch_language q with Some v => Some v | None => patch_language p end;
     patch_conversationHistory :=
       match patch_conversationHistory q with
       | Some v => Some v | None => patch_conversationHistory p end;
     patch_currentProducts :=
       match patch_currentProducts q with
       | Some v => Some v | None => patch_currentProducts p end;
     patch_cartItems :=
       match patch_cartItems q with Some v => Some v | None => patch_cartItems p end;
     patch_funnelStage :=
       match patch_funnelStage q with Some v => Some v | None => patch_funnelStage p end |}.

(** The utterance as the classifier sees it. *)
Definition lowered (userInput : string) : string :=
  string_of_list_ascii (JsString.toLowerCase userInput).

(** The character before a position: the last one of the text [a]
    read so far, or [before] when nothing was read. *)
Definition lastOr (before : option ascii) (a : list ascii) : option ascii :=
  match last a with Some c => Some c | None => before end.

(** An id of the shape [generateSessionId] makes: [voice_] followed by
    letters, digits and underscores. Such an id is a document id. *)
Definition generatedId (id : string) : bool :=
  match JsString.stripPrefix (JsString.chars "voice_") (JsString.chars id) with
  | Some rest => forallb JsString.isWordChar rest
  | None => false
  end.

(** The engine's own [navigate_funnel] action: a direction, no stage. *)
Definition nextStepAction : Action :=
  {| type := "navigate_funnel";
     data := Some {| data_query := None; data_productId := None;
                     data_direction := Some "next"%string;
                     data_customerId := None; data_stage := None |} |}.

(** An action the dispatcher can handle on a stored session: it has a
    data object, and a stage when it is a [navigate_funnel] action. *)
Definition handleable (a : Action) : Prop :=
  ∃ d, data a = Some d
       ∧ (type a = "navigate_funnel"%string → is_Some (data_stage d)).

(** A session after the two appends of a turn. *)
Definition withBothMessages (env : TurnEnv) (tr : TranscriptionResult)
    (s : VoiceSession) : VoiceSession :=
  appended (assistantMessage (text (turnReply env tr s)) (env_clockAssistant env))
           (Some (intentName (intent (turnReply env tr s))))
    (appended (userMessage (transcript tr) (env_clockUser env)) None s).

(** A session that is stale at the sweep of instant [now]. *)
Definition staleAt (now : Z) (s : VoiceSession) : bool :=
  isStale (now - 60 * 60 * 1000) s.

(** The request of a valid start. *)
Definition startFor (req : StartRequest) : Prop :=
  start_method req = "POST"%string.

(** More sample data. *)

Definition postStart : StartRequest :=
  {| start_method := "POST";
     start_body := Returned {| body_language := None; body_deviceType := None |};
     start_userAgent := Some "Mozilla/5.0"%string;
     start_forwardedFor := Some "10.0.0.1, 10.0.0.2"%string |}.

Definition startingGuest : StartEnv :=
  {| start_customerQuery := Thrown CollaboratorFailed;
     start_newId := "voice_1"; start_clock := 1000 |}.

Definition ann : CustomerProfile :=
  {| profile_id := "c1"; profile_firstName := Some "Ann"%string;
     profile_lastName := Some "Lee"%string |}.

Definition startingAnn : StartEnv :=
  {| start_customerQuery :=
       Returned {| answer_customer := Some ann; answer_errors := false |};
     start_newId := "voice_1"; start_clock := 1000 |}.

(** The session start-session stores for Ann. *)
Definition annSession : VoiceSession :=
  freshSession "voice_1" 1000
    {| init_customerId := Some "c1"%string;
       init_language := Some "en-US"%string;
       init_deviceType := web;
       init_userAgent := Some "Mozilla/5.0"%string;
       init_ipAddress := Some "10.0.0.1"%string |}.

(** The same session once ended at instant 5000, without a score. *)
Definition finishedAnnSession : VoiceSession := ended None 5000 5000 annSession.

Definition cartReady : AddToCartEnv :=
  {| atc_isLoggedIn := Returned true;
     atc_addLines := fun _ _ =>
       Returned {| lines_cart := Some "cart"%string; lines_errors := None |} |}.

Definition postAddToCart (id : option string) : AddToCartRequest :=
  {| atc_method := "POST"; atc_sessionId := id; atc_productId := None;
     atc_variantId := Some "variant_1"%string; atc_quantity := None |}.

Definition noAlternative : SpeechResult := {| alternatives := None |}.

Definition saying (t : string) : SpeechResult :=
  {| alternatives :=
       Some [ {| alt_transcript := Some t;
                 alt_confidence := Some (QArith_base.Qmake 9 10) |} ] |}.

(* ===================================================================== *)
(** * Running the session operations on a stored session *)
(* ===================================================================== *)

Ltac run_js :=
  repeat (unfold mbind, mret, Js_bind, Js_ret, throw, await, tryCatch,
                 docGet, docSet, docUpdate, getVoiceSession,
                 getConversationHistory, getTotalMessages; simpl).

Section Stored.
Context (σ : Store) (id : string) (s : VoiceSession).
Hypothesis Hs : σ !! id = Some s.

Lemma addMessageToSession_stored m i :
  addMessageToSession id m i σ = (Returned tt, <[id := appended m i s]> σ).
Proof using Hs.
  unfold addMessageToSession. run_js. rewrite Hs.
  destruct i as [[|c n]|]; run_js; rewrite ?Hs; reflexivity.
Qed.

Lemma updateSessionContext_stored p :
  updateSessionContext id p σ
  = (Returned tt, <[id := setContext (spreadContext (context s) p) s]> σ).
Proof using Hs.
  unfold updateSessionContext. run_js. rewrite Hs. run_js. by rewrite Hs.
Qed.

Lemma endVoiceSession_stored score t1 t2 :
  endVoiceSession id score t1 t2 σ
  = (Returned tt, <[id := ended score t1 t2 s]> σ).
Proof using Hs.
  unfold endVoiceSession. run_js. rewrite Hs. run_js. by rewrite Hs.
Qed.

Lemma trackProductDiscussion_stored productId :
  trackProductDiscussion id productId σ
  = (Returned tt,
     if includes (productsDiscussed (analytics s)) productId then σ
     else <[id := setProductsDiscussed
                    (productsDiscussed (analytics s) ++ [productId]) s]> σ).
Proof using Hs.
  unfold trackProductDiscussion. run_js. rewrite Hs.
  destruct (includes _ _); run_js; by rewrite ?Hs.
Qed.

Lemma trackConversionAttempt_stored :
  trackConversionAttempt id σ
  = (Returned tt,
     <[id := setConversionsAttempted
               (conversionsAttempted (analytics s) + 1) s]> σ).
Proof using Hs.
  unfold trackConversionAttempt. run_js. rewrite Hs. run_js. by rewrite Hs.
Qed.

Lemma pauseVoiceSession_stored :
  pauseVoiceSession id σ = (Returned tt, <[id := setStatus paused s]> σ).
Proof using Hs. unfold pauseVoiceSession. run_js. by rewrite Hs. Qed.

Lemma resumeVoiceSession_stored :
  resumeVoiceSession id σ = (Returned tt, <[id := setStatus active s]> σ).
Proof using Hs. unfold resumeVoiceSession. run_js. by rewrite Hs. Qed.

End Stored.

Lemma keepsTurns_refl s : keepsTurns s s.
Proof. by repeat split. Qed.

Lemma keepsTurns_trans s1 s2 s3 :
  keepsTurns s1 s2 → keepsTurns s2 s3 → keepsTurns s1 s3.
Proof.
  intros (h1 & m1 & st1 & i1) (h2 & m2 & st2 & i2).
  repeat split; congruence.
Qed.

(** ** Dispatch *)




(** Dispatch runs the actions from left to right and stops at the first
    handler that throws. *)
Lemma processSuggestedActions_app id l1 l2 (σ : Store) :
  processSuggestedActions id (l1 ++ l2) σ
  = match processSuggestedActions id l1 σ with
    | (Returned _, σ1) => processSuggestedActions id l2 σ1
    | (Thrown e, σ1) => (Thrown e, σ1)
    end.
Proof.
  revert σ. induction l1 as [|a l1 IH]; intros σ; [reflexivity |].
  simpl. unfold mbind, Js_bind.
  destruct (handleAction id a σ) as [[[]|e] σ1]; [apply IH | reflexivity].
Qed.

(** ** The sweep *)

Lemma cleanupAbandonedSessions_lookup now (σ : Store) id :
  (cleanupAbandonedSessions now σ).2 !! id
  = (fun s => if isStale (now - 60 * 60 * 1000) s
              then setStatus abandoned s else s) <$> σ !! id.
Proof. unfold cleanupAbandonedSessions. simpl. by rewrite lookup_fmap. Qed.

(** ** A whole turn *)

Lemma appended_intent m i s :
  appended m (Some (intentName i)) s
  = setAnalytics (countIntent (analytics s) (intentName i))
      (setTotalMessages (totalMessages (metadata s) + 1)
         (setConversationHistory (conversationHistory s ++ [m]) s)).
Proof. by destruct i. Qed.

Example detectIntent_red_dress r : detectIntent "find me a red dress" r = product_search.
Proof. reflexivity. Qed.

Example detectIntent_case : detectIntent "ADD it to my Cart" EmptyString = add_to_cart.
Proof. reflexivity. Qed.

Example detectIntent_boundary : detectIntent "finding dresses" EmptyString = general_help.
Proof. reflexivity. Qed.

Example detectIntent_plural : detectIntent "I need shoes" EmptyString = general_help.
Proof. reflexivity. Qed.

Example searchPhrase_ex :
  JsString.searchPhrase (JsString.chars "I am Searching for 'red dress' now")
  = Some (JsString.chars "red dress").
Proof. reflexivity. Qed.

Example searchPhrase_unclosed :
  JsString.searchPhrase (JsString.chars "searching for 'red dress") = None.
Proof. reflexivity. Qed.


(* ===================================================================== *)
(** * The intent classifier and the action extractor *)
(* ===================================================================== *)

Example detectIntent_reply_step :
  detectIntent "hello" "Let us go to the next step" = funnel_navigation.
Proof. reflexivity. Qed.

Example detectIntent_precedence :
  detectIntent "show me my order status and track it" EmptyString = checkout.
Proof. reflexivity. Qed.

Lemma detectIntent_decided u r :
  utteranceDecides u = true → detectIntent u r = detectIntent u EmptyString.
Proof.
  unfold utteranceDecides, detectIntent. cbv zeta.
  generalize (JsString.toLowerCase u); intros input.
  destruct (JsString.matchWords searchVerbs input),
           (JsString.matchWords searchNouns input),
           (JsString.matchWords cartVerbs input),
           (JsString.matchWords cartNouns input),
           (JsString.matchWords checkoutWords input),
           (JsString.matchWords orderNouns input),
           (JsString.matchWords orderQuestions input),
           (JsString.matchWords funnelInputWords input);
    simpl; intros H; try reflexivity; discriminate.
Qed.

Lemma detectIntent_undecided u r :
  utteranceDecides u = false →
  detectIntent u r = if replyNamesFunnel r then funnel_navigation else general_help.
Proof.
  unfold utteranceDecides, detectIntent, replyNamesFunnel. cbv zeta.
  generalize (JsString.toLowerCase u); intros input.
  destruct (JsString.matchWords searchVerbs input),
           (JsString.matchWords searchNouns input),
           (JsString.matchWords cartVerbs input),
           (JsString.matchWords cartNouns input),
           (JsString.matchWords checkoutWords input),
           (JsString.matchWords orderNouns input),
           (JsString.matchWords orderQuestions input),
           (JsString.matchWords funnelInputWords input);
    simpl; intros H; try reflexivity; discriminate.
Qed.

(** C4 (counterexample). The same utterance with two different model
    replies gives two different intents: the reply reaches the classifier. *)
Lemma detectIntent_depends_on_reply :
  detectIntent "hello" "Let us go to the next step" = funnel_navigation
  ∧ detectIntent "hello" "Hi, how can I help?" = general_help.
Proof. split; reflexivity. Qed.

(** C4 (amended). [detectIntent] is a function of the utterance and of the
    model's reply. The reply is read by the last rule only: two runs on
    the same utterance give the same intent whenever the utterance itself
    matches a keyword rule, or the two replies agree on naming a step,
    stage or funnel; when the utterance matches no rule, the intent is
    [funnel_navigation] if the reply names one and the default
    [general_help] otherwise. *)
Theorem detectIntent_reply_only_in_last_rule (u r1 r2 : string) :
  (utteranceDecides u = true ∨ replyNamesFunnel r1 = replyNamesFunnel r2 →
   detectIntent u r1 = detectIntent u r2)
  ∧ (utteranceDecides u = false →
     detectIntent u r1
     = if replyNamesFunnel r1 then funnel_navigation else general_help).
Proof.
  split; [| apply detectIntent_undecided].
  intros [Hu | Hr].
  - by rewrite (detectIntent_decided u r1), (detectIntent_decided u r2).
  - destruct (utteranceDecides u) eqn:Hu.
    + by rewrite (detectIntent_decided u r1), (detectIntent_decided u r2).
    + by rewrite !detectIntent_undecided, Hr.
Qed.

Lemma detectIntent_reply_only_in_last_rule_witness :
  detectIntent "add this to my cart" "Here is the next step"
  = detectIntent "add this to my cart" "Sure"
  ∧ detectIntent "hello" "Hi there" = general_help.
Proof.
  split.
  - apply (detectIntent_reply_only_in_last_rule
             "add this to my cart" "Here is the next step" "Sure").
    left. reflexivity.
  - apply (detectIntent_reply_only_in_last_rule "hello" "Hi there" "Hi there").
    reflexivity.
Defined.

(** C10. One generation suggests at most one action: every branch of
    [extractActions] pushes at most once, and the fallback of
    [generateAssistantResponse] suggests none. *)
Theorem extractActions_at_most_one :
  (∀ responseText i c, length (extractActions responseText i c) ≤ 1)
  ∧ (∀ userInput c model,
       length (default [] (suggestedActions
                 (generateAssistantResponse userInput c model))) ≤ 1).
Proof.
  assert (H : ∀ responseText i c, length (extractActions responseText i c) ≤ 1).
  { intros r i c. destruct i; simpl; repeat case_match; simpl; lia. }
  split; [exact H |].
  intros u c [|t n]; simpl; [lia | apply H].
Qed.

(* ===================================================================== *)
(** * The lifecycle operations on terminal sessions *)
(* ===================================================================== *)

Example pause_then_resume_completed :
  status <$> ((resumeVoiceSession "voice_1"
                 (pauseVoiceSession "voice_1"
                    {[ "voice_1"%string := finishedSession ]}).2).2
              !! "voice_1"%string)
  = Some active.
Proof. vm_compute. reflexivity. Qed.

Example resume_missing :
  resumeVoiceSession "voice_1" ∅ = (Thrown DocumentMissing, ∅).
Proof. reflexivity. Qed.

(** C3 (counterexample). A completed session and a swept one are both
    made [active] again by [resumeVoiceSession]. *)
Lemma resume_reactivates_terminal :
  status finishedSession = completed
  ∧ status <$> ((resumeVoiceSession "voice_1"
                   {[ "voice_1"%string := finishedSession ]}).2
                !! "voice_1"%string) = Some active
  ∧ status sweptSession = abandoned
  ∧ status <$> ((resumeVoiceSession "voice_1"
                   {[ "voice_1"%string := sweptSession ]}).2
                !! "voice_1"%string) = Some active.
Proof. vm_compute. repeat split; reflexivity. Qed.

(** C3 (amended). On a stored session in a terminal state, pause, end
    and the sweep never set the state to [active]: pause stores
    [paused], end stores [completed], and the sweep, which selects
    [active] sessions only, leaves the session as it is. Resume has no
    guard: from any state, terminal ones included, it stores [active]. *)
Theorem lifecycle_on_terminal_session (σ : Store) (id : string)
    (s : VoiceSession) (Hs : σ !! id = Some s) :
  resumeVoiceSession id σ = (Returned tt, <[id := setStatus active s]> σ)
  ∧ (isTerminal (status s) = true →
     pauseVoiceSession id σ = (Returned tt, <[id := setStatus paused s]> σ)
     ∧ (∀ score t1 t2,
          status <$> ((endVoiceSession id score t1 t2 σ).2 !! id)
          = Some completed)
     ∧ (∀ now, (cleanupAbandonedSessions now σ).2 !! id = Some s)).
Proof.
  split; [by apply resumeVoiceSession_stored |].
  intros Ht. split; [by apply pauseVoiceSession_stored |]. split.
  - intros score t1 t2. rewrite (endVoiceSession_stored _ _ _ Hs). simpl.
    rewrite lookup_insert_eq. unfold ended.
    destruct score as [z|]; [destruct (z =? 0)%Z |]; reflexivity.
  - intros now. rewrite cleanupAbandonedSessions_lookup, Hs. simpl.
    unfold isStale. destruct (status s); try discriminate; reflexivity.
Qed.

Lemma lifecycle_on_terminal_session_witness :
  resumeVoiceSession "voice_1" {[ "voice_1"%string := sweptSession ]}
  = (Returned tt,
     <[ "voice_1"%string := setStatus active sweptSession ]>
       {[ "voice_1"%string := sweptSession ]})
  ∧ (cleanupAbandonedSessions 9000000 {[ "voice_1"%string := sweptSession ]}).2
    !! "voice_1"%string = Some sweptSession.
Proof.
  pose proof (lifecycle_on_terminal_session
                {[ "voice_1"%string := sweptSession ]} "voice_1" sweptSession
                (lookup_singleton_eq _ _)) as [Hr Ht].
  split; [exact Hr |].
  destruct (Ht eq_refl) as (_ & _ & Hsweep). apply Hsweep.
Defined.

(* ===================================================================== *)
(** * The turn pipeline *)
(* ===================================================================== *)

Example processAudio_missing_session :
  processAudio (hearing "hello" ModelThrows) (postAudio "voice_9")
    {[ "voice_1"%string := sampleSession ]}
  = (JsonError 404 "Session not found", {[ "voice_1"%string := sampleSession ]}).
Proof. reflexivity. Qed.

(** C7. When the transcriber returns an empty transcript for a turn on a
    stored session, the turn fails with the empty-transcript error
    (status 400, [Could not transcribe audio]) and the collection is
    left exactly as it was: no message appended, no counter touched. *)
Theorem processTurn_empty_transcript (env : TurnEnv) (req : TurnRequest)
    (σ : Store) (id : string) (s : VoiceSession) (tr : TranscriptionResult)
    (Hs : σ !! id = Some s) (Hreq : turnFor req id)
    (Htr : env_transcription env = Returned tr)
    (Hempty : transcript tr = EmptyString) :
  processAudio env req σ = (JsonError 400 "Could not transcribe audio", σ).
Proof.
  destruct Hreq as (Hm & [au Hau] & Hid & Hne).
  unfold processAudio, processAudioTry. rewrite Hm, Hau, Hid. simpl.
  destruct id as [|c0 id0]; [done |].
  run_js. rewrite Hs. run_js. rewrite Htr, Hempty. reflexivity.
Qed.

Lemma processTurn_empty_transcript_witness :
  processAudio (hearing EmptyString (ModelReplies (Some "Hi"%string) None))
    (postAudio "voice_1") {[ "voice_1"%string := sampleSession ]}
  = (JsonError 400 "Could not transcribe audio",
     {[ "voice_1"%string := sampleSession ]}).
Proof.
  apply (processTurn_empty_transcript _ _ _ "voice_1" sampleSession
           {| transcript := EmptyString;
              transcript_confidence := QArith_base.Qmake 9 10 |}).
  - apply lookup_singleton_eq.
  - repeat split; [by eexists | discriminate].
  - reflexivity.
  - reflexivity.
Defined.


(** C1 (counterexample). A turn on a completed session, and one on an
    abandoned session, is answered with a success, and the history of the
    session grows by the user turn and the assistant turn. *)
Lemma processTurn_on_terminal_session_appends :
  status finishedSession = completed
  ∧ conversationHistory finishedSession = []
  ∧ (∃ body,
       (processAudio (hearing "hello" (ModelReplies (Some "Hi"%string) None))
          (postAudio "voice_1") {[ "voice_1"%string := finishedSession ]}).1
       = Json body)
  ∧ conversationHistory <$>
      ((processAudio (hearing "hello" (ModelReplies (Some "Hi"%string) None))
          (postAudio "voice_1") {[ "voice_1"%string := finishedSession ]}).2
       !! "voice_1"%string)
    = Some [userMessage "hello" 2000; assistantMessage "Hi" 3000]
  ∧ status sweptSession = abandoned
  ∧ conversationHistory <$>
      ((processAudio (hearing "hello" (ModelReplies (Some "Hi"%string) None))
          (postAudio "voice_1") {[ "voice_1"%string := sweptSession ]}).2
       !! "voice_1"%string)
    = Some [userMessage "hello" 2000; assistantMessage "Hi" 3000].
Proof.
  split; [reflexivity |]. split; [reflexivity |].
  split; [eexists; vm_compute; reflexivity |].
  split; [vm_compute; reflexivity |].
  split; [reflexivity | vm_compute; reflexivity].
Qed.

(** ** The message count *)



Lemma addMessageToSession_missing (σ : Store) id m i :
  σ !! id = None → addMessageToSession id m i σ = (Thrown DocumentMissing, σ).
Proof.
  intros Hn. unfold addMessageToSession. run_js. rewrite Hn.
  destruct i as [[|c n]|]; run_js; rewrite ?Hn; reflexivity.
Qed.




Example turn_keeps_count :
  (fun s => (length (conversationHistory s), totalMessages (metadata s))) <$>
    ((processAudio (hearing "hello" (ModelReplies (Some "Hi"%string) None))
        (postAudio "voice_1") {[ "voice_1"%string := sampleSession ]}).2
     !! "voice_1"%string)
  = Some (2, 2%Z).
Proof. vm_compute. reflexivity. Qed.

(** ** The red-dress scenario *)

Example red_dress_with_quoted_phrase :
  (processAudio
     (hearing "find me a red dress"
        (ModelReplies (Some "Searching for 'red dress' in our catalog."%string)
                      (Some 42%Z)))
     (postAudio "voice_1") {[ "voice_1"%string := sampleSession ]}).1
  = Json {| result_transcript := "find me a red dress";
            result_confidence := QArith_base.Qmake 9 10;
            result_text := "Searching for 'red dress' in our catalog.";
            result_intent := product_search;
            result_actions := Some [searchAction "red dress"];
            result_tokensUsed := Some 42%Z |}.
Proof. vm_compute. reflexivity. Qed.




(* ===================================================================== *)
(** * Ending a session, and ending it again *)
(* ===================================================================== *)

Lemma endSession_stored env req (σ : Store) id s :
  σ !! id = Some s → endFor req id →
  ∃ summary,
    endSession env req σ
    = (Json {| end_summary := summary; end_analytics := snapshotOf s |},
       <[id := ended (end_satisfactionScore req)
                 (env_clockDuration env) (env_clockEnd env) s]> σ).
Proof.
  intros Hs (Hm & Hid & Hne).
  unfold endSession, endSessionTry. rewrite Hm, Hid. simpl.
  destruct id as [|c0 id0]; [done |].
  unfold mbind at 1. unfold Js_bind at 1. unfold getVoiceSession, docGet.
  rewrite Hs.
  unfold mbind at 1. unfold Js_bind at 1.
  destruct (0 <? length (conversationHistory s))%nat;
    [destruct (env_summary env) as [sm|e] |];
    run_js; fold (getVoiceSession (String c0 id0));
    rewrite (endVoiceSession_stored _ _ _ Hs); eexists; reflexivity.
Qed.

Lemma snapshotOf_ended score t1 t2 s :
  snapshotOf (ended score t1 t2 s) = snapshotOf s.
Proof. unfold ended. destruct score as [z|]; [destruct (z =? 0)%Z |]; reflexivity. Qed.

Example end_missing_session :
  endSession (endingAt 9000) (postEnd "voice_9" None)
    {[ "voice_1"%string := sampleSession ]}
  = (JsonError 404 "Session not found", {[ "voice_1"%string := sampleSession ]}).
Proof. reflexivity. Qed.

(** C2 (counterexample). Ending a completed session again, later and
    with a score, is answered with a success but rewrites the stored
    record: its end time, its duration and its satisfaction score
    change. *)
Lemma end_again_rewrites_record :
  status finishedSession = completed
  ∧ (endTime finishedSession, totalDuration (metadata finishedSession),
     satisfactionScore (analytics finishedSession))
    = (Some 5000%Z, Some 4%Z, None)
  ∧ (fun s => (endTime s, totalDuration (metadata s),
               satisfactionScore (analytics s))) <$>
      ((endSession (endingAt 9000) (postEnd "voice_1" (Some 4%Z))
          {[ "voice_1"%string := finishedSession ]}).2 !! "voice_1"%string)
    = Some (Some 9000%Z, Some 8%Z, Some 4%Z).
Proof. vm_compute. repeat split; reflexivity. Qed.

(** C2 (amended). Ending a stored session twice in a row: both calls are
    answered with a success and both report the same analytics snapshot
    (message count, intent counters, products discussed, conversion
    attempts). The second call leaves the state [completed] and the
    history, the context and that snapshot as they were, but it is not
    without effect on the stored record: it writes the end time and the
    duration again from the clock of the second call, and the
    satisfaction score when a non-zero score comes with it. *)
Theorem end_session_twice (σ : Store) (id : string) (s : VoiceSession)
    (env1 env2 : EndEnv) (req1 req2 : EndRequest)
    (Hs : σ !! id = Some s) (H1 : endFor req1 id) (H2 : endFor req2 id) :
  ∃ summary1 summary2 s1 s2,
    endSession env1 req1 σ
    = (Json {| end_summary := summary1; end_analytics := snapshotOf s |},
       <[id := s1]> σ)
    ∧ endSession env2 req2 (<[id := s1]> σ)
      = (Json {| end_summary := summary2; end_analytics := snapshotOf s |},
         <[id := s2]> σ)
    ∧ status s1 = completed ∧ status s2 = completed
    ∧ conversationHistory s2 = conversationHistory s1
    ∧ context s2 = context s1
    ∧ snapshotOf s2 = snapshotOf s1
    ∧ endTime s2 = Some (env_clockEnd env2)
    ∧ totalDuration (metadata s2)
      = Some ((env_clockDuration env2 - startTime s1) / 1000)%Z
    ∧ satisfactionScore (analytics s2)
      = match end_satisfactionScore req2 with
        | Some z => if (z =? 0)%Z then satisfactionScore (analytics s1)
                    else Some z
        | None => satisfactionScore (analytics s1)
        end.
Proof.
  destruct (endSession_stored env1 req1 σ id s Hs H1) as (sm1 & E1).
  set (s1 := ended (end_satisfactionScore req1) (env_clockDuration env1)
               (env_clockEnd env1) s) in *.
  destruct (endSession_stored env2 req2 (<[id := s1]> σ) id s1
              (lookup_insert_eq _ _ _) H2) as (sm2 & E2).
  rewrite insert_insert_eq in E2.
  assert (Hsnap : snapshotOf s1 = snapshotOf s) by apply snapshotOf_ended.
  rewrite Hsnap in E2.
  exists sm1, sm2, s1,
    (ended (end_satisfactionScore req2) (env_clockDuration env2)
       (env_clockEnd env2) s1).
  split; [exact E1 |]. split; [exact E2 |].
  subst s1. unfold ended.
  destruct (end_satisfactionScore req1) as [z1|]; [destruct (z1 =? 0)%Z |];
    (destruct (end_satisfactionScore req2) as [z2|]; [destruct (z2 =? 0)%Z |]);
    repeat split.
Qed.

Lemma end_session_twice_witness :
  ∃ summary1 summary2 s1 s2,
    endSession (endingAt 5000) (postEnd "voice_1" None)
      {[ "voice_1"%string := sampleSession ]}
    = (Json {| end_summary := summary1;
               end_analytics := snapshotOf sampleSession |},
       <[ "voice_1"%string := s1 ]> {[ "voice_1"%string := sampleSession ]})
    ∧ endSession (endingAt 9000) (postEnd "voice_1" (Some 4%Z))
        (<[ "voice_1"%string := s1 ]> {[ "voice_1"%string := sampleSession ]})
      = (Json {| end_summary := summary2;
                 end_analytics := snapshotOf sampleSession |},
         <[ "voice_1"%string := s2 ]> {[ "voice_1"%string := sampleSession ]})
    ∧ status s1 = completed ∧ status s2 = completed
    ∧ conversationHistory s2 = conversationHistory s1
    ∧ context s2 = context s1
    ∧ snapshotOf s2 = snapshotOf s1
    ∧ endTime s2 = Some 9000%Z
    ∧ totalDuration (metadata s2) = Some ((9000 - startTime s1) / 1000)%Z
    ∧ satisfactionScore (analytics s2) = Some 4%Z.
Proof.
  apply (end_session_twice {[ "voice_1"%string := sampleSession ]} "voice_1"
           sampleSession (endingAt 5000) (endingAt 9000)
           (postEnd "voice_1" None) (postEnd "voice_1" (Some 4%Z))).
  - vm_compute. reflexivity.
  - repeat split. discriminate.
  - repeat split. discriminate.
Defined.

(* ===================================================================== *)
(** * The turn, exactly *)
(* ===================================================================== *)

Lemma buildAssistantContext_products s q :
  ctx_currentProducts (buildAssistantContext s q) = None.
Proof. reflexivity. Qed.

(** Dispatch of what the engine suggested, when the context names no
    current product: only the funnel action writes. *)
Lemma dispatch_of_reply (σ : Store) id s u c m :
  σ !! id = Some s → ctx_currentProducts c = None →
  processSuggestedActions id
    (default [] (suggestedActions (generateAssistantResponse u c m))) σ
  = (Returned tt,
     if bool_decide (intent (generateAssistantResponse u c m) = funnel_navigation)
     then <[id := setContext (spreadContext (context s) (funnelPatch None)) s]> σ
     else σ).
Proof.
  intros Hs Hc. destruct m as [|t n]; simpl; [reflexivity |].
  destruct (detectIntent u (orString t EmptyString)); simpl;
    rewrite ?Hc; try reflexivity.
  - destruct (JsString.searchPhrase _); reflexivity.
  - unfold mbind, Js_bind.
    change (handleAction id _ σ)
      with (updateSessionContext id (funnelPatch None) σ).
    by rewrite (updateSessionContext_stored _ _ _ Hs).
Qed.

Lemma processAudio_exact env req (σ : Store) id s tr :
  σ !! id = Some s → turnFor req id →
  env_transcription env = Returned tr → transcript tr ≠ EmptyString →
  processAudio env req σ
  = (Json {| result_transcript := transcript tr;
             result_confidence := transcript_confidence tr;
             result_text := text (turnReply env tr s);
             result_intent := intent (turnReply env tr s);
             result_actions := suggestedActions (turnReply env tr s);
             result_tokensUsed := tokensUsed (turnReply env tr s) |},
     <[id := afterTurn env tr s]> σ).
Proof.
  intros Hs (Hm & [au Hau] & Hid & Hne) Htr Hnz.
  unfold afterTurn, turnReply.
  set (ai := generateAssistantResponse (transcript tr)
               (buildAssistantContext s (env_customerQuery env)) (env_model env)).
  set (s1 := appended (userMessage (transcript tr) (env_clockUser env)) None s).
  set (s2 := appended (assistantMessage (text ai) (env_clockAssistant env))
               (Some (intentName (intent ai))) s1).
  pose proof (dispatch_of_reply (<[id := s2]> σ) id s2 (transcript tr)
                (buildAssistantContext s (env_customerQuery env)) (env_model env)
                (lookup_insert_eq _ _ _) eq_refl) as E3.
  fold ai in E3.
  unfold processAudio, processAudioTry. rewrite Hm, Hau, Hid. simpl.
  destruct id as [|c0 id0]; [done |].
  unfold mbind at 1. unfold Js_bind at 1. unfold getVoiceSession, docGet.
  rewrite Hs.
  unfold mbind at 1. unfold Js_bind at 1. unfold await. rewrite Htr.
  destruct (transcript tr) as [|c1 t1] eqn:Et; [done |].
  unfold mbind at 1. unfold Js_bind at 1.
  rewrite (addMessageToSession_stored _ _ _ Hs). fold s1.
  unfold mbind at 1. unfold Js_bind at 1.
  rewrite (addMessageToSession_stored _ _ s1 (lookup_insert_eq _ _ _)).
  rewrite insert_insert_eq.
  fold ai. fold s2.
  unfold mbind at 1. unfold Js_bind at 1. rewrite E3.
  destruct (bool_decide (intent ai = funnel_navigation)) eqn:Hf.
  - rewrite insert_insert_eq.
    unfold mbind at 1. unfold Js_bind at 1.
    destruct (bool_decide (intent ai = add_to_cart)
              || bool_decide (intent ai = checkout)).
    + rewrite (trackConversionAttempt_stored _ _ _ (lookup_insert_eq _ _ _)).
      by rewrite insert_insert_eq.
    + reflexivity.
  - unfold mbind at 1. unfold Js_bind at 1.
    destruct (bool_decide (intent ai = add_to_cart)
              || bool_decide (intent ai = checkout)).
    + rewrite (trackConversionAttempt_stored _ _ _ (lookup_insert_eq _ _ _)).
      by rewrite insert_insert_eq.
    + reflexivity.
Qed.


Lemma afterTurn_history env tr s :
  conversationHistory (afterTurn env tr s)
  = conversationHistory s
    ++ [userMessage (transcript tr) (env_clockUser env);
        assistantMessage (text (turnReply env tr s)) (env_clockAssistant env)].
Proof.
  unfold afterTurn. rewrite appended_intent.
  repeat case_match; simpl; by rewrite <- app_assoc.
Qed.

Lemma afterTurn_intents env tr s :
  intents (analytics (afterTurn env tr s))
  = <[intentName (intent (turnReply env tr s)) :=
        (intentCount (analytics s) (intentName (intent (turnReply env tr s))) + 1)%Z]>
      (intents (analytics s)).
Proof.
  unfold afterTurn. rewrite appended_intent. repeat case_match; reflexivity.
Qed.

Lemma afterTurn_products env tr s :
  productsDiscussed (analytics (afterTurn env tr s))
  = productsDiscussed (analytics s).
Proof.
  unfold afterTurn. rewrite appended_intent. repeat case_match; reflexivity.
Qed.

Lemma afterTurn_conversions env tr s :
  conversionsAttempted (analytics (afterTurn env tr s))
  = (conversionsAttempted (analytics s)
     + if bool_decide (intent (turnReply env tr s) = add_to_cart)
          || bool_decide (intent (turnReply env tr s) = checkout)
       then 1 else 0)%Z.
Proof.
  unfold afterTurn. rewrite appended_intent.
  repeat case_match; simpl; lia.
Qed.




Example add_to_cart_turn_counts :
  (fun s => (conversionsAttempted (analytics s), productsDiscussed (analytics s))) <$>
    ((processAudio
        (hearing "add this to my cart" (ModelReplies (Some "Sure"%string) None))
        (postAudio "voice_1") {[ "voice_1"%string := sampleSession ]}).2
     !! "voice_1"%string)
  = Some (1%Z, []).
Proof. vm_compute. reflexivity. Qed.


(** ** Invariants of the history and of the intent counters *)








(** ** The optional cart lookup *)

Lemma generateAssistantResponse_context u c c' m :
  ctx_currentProducts c = ctx_currentProducts c' →
  ctx_customerId c = ctx_customerId c' →
  generateAssistantResponse u c m = generateAssistantResponse u c' m.
Proof.
  intros Hp Hc. destruct m as [|t n]; [reflexivity |].
  unfold generateAssistantResponse, extractActions. by rewrite Hp, Hc.
Qed.

(* ===================================================================== *)
(** * More on the session service *)
(* ===================================================================== *)

(** X9. Recording a discussed product is a set insertion: on a stored
    session the product is in the list afterwards, the list holds what
    it held plus that product, a list without duplicates stays so, and
    recording the same product again changes nothing. *)
Theorem trackProductDiscussion_adds_once (σ : Store) (id productId : string)
    (s : VoiceSession) (Hs : σ !! id = Some s) :
  ∃ s',
    trackProductDiscussion id productId σ = (Returned tt, <[id := s']> σ)
    ∧ (∀ q, q ∈ productsDiscussed (analytics s')
            ↔ q ∈ productsDiscussed (analytics s) ∨ q = productId)
    ∧ (NoDup (productsDiscussed (analytics s)) →
       NoDup (productsDiscussed (analytics s')))
    ∧ trackProductDiscussion id productId (<[id := s']> σ)
      = (Returned tt, <[id := s']> σ).
Proof.
  rewrite (trackProductDiscussion_stored _ _ _ Hs).
  unfold includes. case_bool_decide as Hin.
  - exists s. rewrite insert_id by done.
    split; [reflexivity |]. split; [| split; [done |]].
    + intros q. split; [by left | by intros [? | ->]].
    + rewrite (trackProductDiscussion_stored _ _ _ Hs).
      unfold includes. by rewrite bool_decide_eq_true_2.
  - eexists. split; [reflexivity |]. simpl. split; [| split].
    + intros q. rewrite elem_of_app, list_elem_of_singleton. tauto.
    + intros Hnd. apply NoDup_app. split; [done |]. split.
      * intros q Hq ->%list_elem_of_singleton. done.
      * apply NoDup_singleton.
    + rewrite (trackProductDiscussion_stored _ _ _ (lookup_insert_eq _ _ _)).
      unfold includes. simpl. rewrite bool_decide_eq_true_2; [done |].
      rewrite elem_of_app, list_elem_of_singleton. by right.
Qed.

Lemma trackProductDiscussion_adds_once_witness :
  ∃ s',
    trackProductDiscussion "voice_1" "p1" {[ "voice_1"%string := sampleSession ]}
    = (Returned tt, <[ "voice_1"%string := s' ]> {[ "voice_1"%string := sampleSession ]})
    ∧ (∀ q, q ∈ productsDiscussed (analytics s')
            ↔ q ∈ productsDiscussed (analytics sampleSession) ∨ q = "p1"%string)
    ∧ (NoDup (productsDiscussed (analytics sampleSession)) →
       NoDup (productsDiscussed (analytics s')))
    ∧ trackProductDiscussion "voice_1" "p1"
        (<[ "voice_1"%string := s' ]> {[ "voice_1"%string := sampleSession ]})
      = (Returned tt,
         <[ "voice_1"%string := s' ]> {[ "voice_1"%string := sampleSession ]}).
Proof.
  apply (trackProductDiscussion_adds_once
           {[ "voice_1"%string := sampleSession ]} "voice_1" "p1" sampleSession).
  vm_compute. reflexivity.
Defined.

Lemma setStatus_same s : setStatus (status s) s = s.
Proof. by destruct s. Qed.

(** X11. Pause and resume undo each other: pausing an active session
    and resuming it gives the collection back exactly, and so does
    resuming a paused session and pausing it. *)
Theorem pause_resume_round_trip (σ : Store) (id : string) (s : VoiceSession)
    (Hs : σ !! id = Some s) :
  (status s = active →
   (pauseVoiceSession id ;; resumeVoiceSession id) σ = (Returned tt, σ))
  ∧ (status s = paused →
     (resumeVoiceSession id ;; pauseVoiceSession id) σ = (Returned tt, σ)).
Proof.
  split; intros Hst; unfold mbind, Js_bind.
  - rewrite (pauseVoiceSession_stored _ _ _ Hs).
    rewrite (resumeVoiceSession_stored _ _ _ (lookup_insert_eq _ _ _)).
    rewrite insert_insert_eq.
    change (setStatus active (setStatus paused s)) with (setStatus active s).
    by rewrite <- Hst, setStatus_same, insert_id.
  - rewrite (resumeVoiceSession_stored _ _ _ Hs).
    rewrite (pauseVoiceSession_stored _ _ _ (lookup_insert_eq _ _ _)).
    rewrite insert_insert_eq.
    change (setStatus paused (setStatus active s)) with (setStatus paused s).
    by rewrite <- Hst, setStatus_same, insert_id.
Qed.

Lemma pause_resume_round_trip_witness :
  (pauseVoiceSession "voice_1" ;; resumeVoiceSession "voice_1")
    {[ "voice_1"%string := sampleSession ]}
  = (Returned tt, {[ "voice_1"%string := sampleSession ]}).
Proof.
  destruct (pause_resume_round_trip {[ "voice_1"%string := sampleSession ]}
              "voice_1" sampleSession) as [H _].
  - vm_compute. reflexivity.
  - apply H. reflexivity.
Defined.

(** X12. The duration [endVoiceSession] stores is the whole number of
    seconds between the start of the session and the clock: when the
    clock is not before the start, it is non-negative and the elapsed
    milliseconds lie within one second above it. The end time stored is
    the clock as read. *)
Theorem endVoiceSession_duration (σ : Store) (id : string) (s : VoiceSession)
    (score : option Z) (t1 t2 : Z)
    (Hs : σ !! id = Some s) (Hclock : (startTime s <= t1)%Z) :
  ∃ s' d,
    endVoiceSession id score t1 t2 σ = (Returned tt, <[id := s']> σ)
    ∧ endTime s' = Some t2
    ∧ totalDuration (metadata s') = Some d
    ∧ (0 <= d)%Z
    ∧ (1000 * d <= t1 - startTime s < 1000 * d + 1000)%Z.
Proof.
  rewrite (endVoiceSession_stored _ _ _ Hs).
  eexists _, ((t1 - startTime s) / 1000)%Z. split; [reflexivity |].
  unfold ended.
  assert (Hd := Z.div_mod (t1 - startTime s) 1000 ltac:(lia)).
  assert (Hm := Z.mod_pos_bound (t1 - startTime s) 1000 ltac:(lia)).
  assert (0 <= (t1 - startTime s) / 1000)%Z by (apply Z.div_pos; lia).
  destruct score as [z|]; [destruct (z =? 0)%Z |]; simpl;
    repeat split; try done; lia.
Qed.

Lemma endVoiceSession_duration_witness :
  ∃ s' d,
    endVoiceSession "voice_1" None 5999 6000 {[ "voice_1"%string := sampleSession ]}
    = (Returned tt, <[ "voice_1"%string := s' ]> {[ "voice_1"%string := sampleSession ]})
    ∧ endTime s' = Some 6000%Z
    ∧ totalDuration (metadata s') = Some d
    ∧ (0 <= d)%Z
    ∧ (1000 * d <= 5999 - startTime sampleSession < 1000 * d + 1000)%Z.
Proof.
  apply (endVoiceSession_duration {[ "voice_1"%string := sampleSession ]}
           "voice_1" sampleSession None 5999 6000).
  - vm_compute. reflexivity.
  - vm_compute. discriminate.
Defined.

Lemma spreadContext_spread c p q :
  spreadContext (spreadContext c p) q = spreadContext c (spreadPatch p q).
Proof.
  destruct p, q. unfold spreadContext, spreadPatch. simpl.
  f_equal; by repeat case_match.
Qed.

Lemma spreadContext_empty c : spreadContext c emptyPatch = c.
Proof. by destruct c. Qed.

Lemma setContext_same s : setContext (context s) s = s.
Proof. by destruct s. Qed.

(** ** The sweep of abandoned sessions *)

Lemma sweep_step_fresh now s :
  staleAt now (if staleAt now s then setStatus abandoned s else s) = false.
Proof.
  destruct (staleAt now s) eqn:H; [| exact H].
  unfold staleAt, isStale. simpl. reflexivity.
Qed.

Lemma sweep_nothing_stale now (σ : Store) :
  (∀ k s, σ !! k = Some s → staleAt now s = false) →
  cleanupAbandonedSessions now σ = (Returned 0%Z, σ).
Proof.
  intros Hfresh. unfold cleanupAbandonedSessions. f_equal.
  - replace (filter _ σ) with (∅ : Store); [by rewrite map_size_empty |].
    symmetry. apply map_empty. intros k.
    apply map_lookup_filter_None. right. intros s Hk. simpl.
    change (staleAt now s ≠ true). rewrite (Hfresh k s Hk). discriminate.
  - apply map_eq. intros k. rewrite lookup_fmap.
    destruct (σ !! k) as [s|] eqn:Hk; [| reflexivity]. simpl.
    change (isStale (now - 60 * 60 * 1000) s) with (staleAt now s).
    by rewrite (Hfresh k s Hk).
Qed.

(** X14. After the sweep no session of the collection is stale (active
    and started more than an hour before the sweep); hence sweeping
    again at the same instant finds nothing: it returns 0 and changes
    nothing. *)
Theorem sweep_leaves_nothing_stale (now : Z) (σ : Store) :
  (∀ k s', (cleanupAbandonedSessions now σ).2 !! k = Some s' →
           staleAt now s' = false)
  ∧ cleanupAbandonedSessions now (cleanupAbandonedSessions now σ).2
    = (Returned 0%Z, (cleanupAbandonedSessions now σ).2).
Proof.
  assert (H : ∀ k s', (cleanupAbandonedSessions now σ).2 !! k = Some s' →
                      staleAt now s' = false).
  { intros k s'. rewrite cleanupAbandonedSessions_lookup.
    destruct (σ !! k) as [s|]; [| discriminate]. simpl.
    intros [= <-]. apply sweep_step_fresh. }
  split; [exact H | by apply sweep_nothing_stale].
Qed.

(** X15. The sweep touches states only, and only those of stale
    sessions: it keeps the set of session ids; a session that is
    paused, completed, abandoned, or active and started within the last
    hour is left exactly as it was; a stale one becomes [abandoned] with
    everything else as it was; and the number returned is the number of
    sessions whose state changed. *)
Theorem sweep_changes_stale_states_only (now : Z) (σ : Store) :
  dom (cleanupAbandonedSessions now σ).2 = dom σ
  ∧ (∀ k s, σ !! k = Some s →
       (cleanupAbandonedSessions now σ).2 !! k
       = Some (if bool_decide (status s = active)
                  && (startTime s <? now - 3600000)%Z
               then setStatus abandoned s else s))
  ∧ (cleanupAbandonedSessions now σ).1
    = Returned (Z.of_nat (size (filter
        (fun kv => status <$> ((cleanupAbandonedSessions now σ).2 !! kv.1)
                   ≠ Some (status kv.2)) σ))).
Proof.
  split; [| split].
  - unfold cleanupAbandonedSessions. simpl. apply dom_fmap_L.
  - intros k s Hk. rewrite cleanupAbandonedSessions_lookup, Hk. reflexivity.
  - unfold cleanupAbandonedSessions at 1. simpl. do 2 f_equal.
    match goal with
    | |- size ?a = size ?b => assert (E : a = b); [| by rewrite E]
    end.
    apply map_filter_ext. intros k s Hk. simpl.
    rewrite lookup_fmap, Hk. simpl.
    destruct (isStale (now - 60 * 60 * 1000) s) eqn:Hst; simpl.
    + split; [| done]. intros _.
      unfold isStale in Hst. apply andb_true_iff in Hst as [Ha _].
      apply bool_decide_eq_true in Ha. rewrite Ha. discriminate.
    + split; [discriminate | intros H; by destruct H].
Qed.

Example sweep_two_hours_old :
  cleanupAbandonedSessions 7201000 {[ "voice_1"%string := sampleSession ]}
  = (Returned 1%Z, {[ "voice_1"%string := sweptSession ]}).
Proof. vm_compute. reflexivity. Qed.

Example sweep_exactly_one_hour_old :
  cleanupAbandonedSessions 3601000 {[ "voice_1"%string := sampleSession ]}
  = (Returned 0%Z, {[ "voice_1"%string := sampleSession ]}).
Proof. vm_compute. reflexivity. Qed.

(** ** What a turn never undoes *)




(* ===================================================================== *)
(** * More on the assistant engine *)
(* ===================================================================== *)

Lemma detectIntent_known u r : detectIntent u r ≠ unknown.
Proof. unfold detectIntent. repeat case_match; discriminate. Qed.

(** X17. The intent of a generation is [unknown] exactly when the call
    to the model threw: the classifier itself never answers [unknown]. *)
Theorem intent_unknown_iff_model_threw (userInput : string)
    (c : AssistantContext) (model : ModelOutcome) :
  intent (generateAssistantResponse userInput c model) = unknown
  ↔ model = ModelThrows.
Proof.
  destruct model as [|t n]; simpl; [done |].
  split; [| discriminate]. intros H. by apply detectIntent_known in H.
Qed.

Lemma matchAlt_in before s w alts :
  w ∈ alts → JsString.matchAltAt before s w = true →
  existsb (JsString.matchAltAt before s) alts = true.
Proof.
  intros Hin Hw. apply existsb_exists. exists w.
  split; [by apply list_elem_of_In | exact Hw].
Qed.

Lemma matchWords_in w alts s :
  w ∈ alts → JsString.matchWords [w] s = true →
  JsString.matchWords alts s = true.
Proof.
  unfold JsString.matchWords. generalize (@None ascii) as before.
  induction s as [|c s IH]; intros before Hin; simpl.
  - rewrite !orb_false_r. intros H. by rewrite (matchAlt_in _ _ w).
  - rewrite orb_false_r. intros [H | H]%orb_true_iff.
    + by rewrite (matchAlt_in _ _ w).
    + rewrite (IH _ Hin H). apply orb_true_r.
Qed.

(** X18. An utterance with the word [order] is never classified as
    [order_status]: the checkout rule, which also lists [order], comes
    first, so the intent is [product_search], [add_to_cart] or
    [checkout]. *)
Theorem order_word_never_order_status (userInput responseText : string)
    (Horder : JsString.matchWords ["order"%string]
                (JsString.toLowerCase userInput) = true) :
  detectIntent userInput responseText ∈ [product_search; add_to_cart; checkout].
Proof.
  assert (H : JsString.matchWords checkoutWords
                (JsString.toLowerCase userInput) = true).
  { apply (matchWords_in "order"); [| exact Horder].
    unfold checkoutWords. set_solver. }
  unfold detectIntent. rewrite H.
  repeat case_match; set_solver.
Qed.

Lemma order_word_never_order_status_witness :
  detectIntent "Where is my order?" "Let me check"
  ∈ [product_search; add_to_cart; checkout].
Proof.
  apply (order_word_never_order_status "Where is my order?" "Let me check").
  reflexivity.
Defined.

Example order_status_reachable :
  detectIntent "When will my delivery arrive?" EmptyString = order_status.
Proof. reflexivity. Qed.

(** ** The captured search phrase *)

Lemma stripPrefixCI_split w s r :
  JsString.stripPrefixCI w s = Some r → ∃ p, s = p ++ r.
Proof.
  revert s. induction w as [|a w IH]; intros s; simpl.
  - intros [= <-]. by exists [].
  - destruct s as [|c s]; [discriminate |].
    destruct (Ascii.eqb a (JsString.lowerChar c)); [| discriminate].
    intros [p ->]%IH. by exists (c :: p).
Qed.

Lemma spanNonQuote_split s body rest :
  JsString.spanNonQuote s = (body, rest) →
  s = body ++ rest ∧ Forall (fun c => JsString.isQuote c = false) body.
Proof.
  revert body rest. induction s as [|c s IH]; intros body rest; simpl.
  - intros [= <- <-]. by split.
  - destruct (JsString.isQuote c) eqn:Hq.
    + intros [= <- <-]. by split.
    + destruct (JsString.spanNonQuote s) as [b r]. intros [= <- <-].
      destruct (IH b r eq_refl) as [-> Hb]. split; [done | by constructor].
Qed.

Lemma quotedAfterFor_capture s q :
  JsString.quotedAfterFor s = Some q →
  q ≠ [] ∧ Forall (fun c => JsString.isQuote c = false) q
  ∧ ∃ a b, s = a ++ q ++ b.
Proof.
  unfold JsString.quotedAfterFor.
  destruct (JsString.stripPrefixCI _ s) as [[|c r]|] eqn:Hp; try discriminate.
  destruct (JsString.isQuote c); [| discriminate].
  destruct (JsString.spanNonQuote r) as [[|b0 body] [|q0 rest]] eqn:Hspan;
    try discriminate.
  intros [= <-].
  destruct (spanNonQuote_split _ _ _ Hspan) as [-> Hbody].
  destruct (stripPrefixCI_split _ _ _ Hp) as [p ->].
  split; [done |]. split; [exact Hbody |].
  exists (p ++ [c]), (q0 :: rest). by rewrite <- !app_assoc.
Qed.

Lemma searchPhraseAt_capture s q :
  JsString.searchPhraseAt s = Some q →
  q ≠ [] ∧ Forall (fun c => JsString.isQuote c = false) q
  ∧ ∃ a b, s = a ++ q ++ b.
Proof.
  unfold JsString.searchPhraseAt.
  destruct (JsString.stripPrefixCI _ s) as [r|] eqn:Hp; [| discriminate].
  destruct (stripPrefixCI_split _ _ _ Hp) as [p ->].
  assert (Hr : ∀ r', (∃ p', r = p' ++ r') →
                     JsString.quotedAfterFor r' = Some q →
                     q ≠ [] ∧ Forall (fun c => JsString.isQuote c = false) q
                     ∧ ∃ a b, p ++ r = a ++ q ++ b).
  { intros r' [p' ->] (Hne & Hq & a & b & ->)%quotedAfterFor_capture.
    split; [done |]. split; [done |].
    exists (p ++ p' ++ a), b. by rewrite <- !app_assoc. }
  destruct (JsString.stripPrefixCI _ r) as [r'|] eqn:Hing.
  - destruct (JsString.quotedAfterFor r') as [q'|] eqn:Hq'.
    + intros [= <-]. apply (Hr r'); [| done].
      by apply stripPrefixCI_split in Hing.
    + apply Hr. by exists [].
  - apply Hr. by exists [].
Qed.

Lemma searchPhrase_capture s q :
  JsString.searchPhrase s = Some q →
  q ≠ [] ∧ Forall (fun c => JsString.isQuote c = false) q
  ∧ ∃ a b, s = a ++ q ++ b.
Proof.
  induction s as [|c s IH]; simpl.
  - discriminate.
  - destruct (JsString.searchPhraseAt (c :: s)) eqn:H.
    + intros [= <-]. by apply searchPhraseAt_capture.
    + intros (Hne & Hq & a & b & ->)%IH.
      split; [done |]. split; [done |]. by exists (c :: a), b.
Qed.

(** X19. The query of a suggested [search_products] action is a piece
    of the model's reply: it is not empty, it holds no quote character,
    and the reply reads as some text, the query, some text. *)
Theorem search_query_is_quoted_piece (responseText : string)
    (c : AssistantContext) (a : Action)
    (Ha : a ∈ extractActions responseText product_search c) :
  ∃ q, a = searchAction q
       ∧ q ≠ EmptyString
       ∧ Forall (fun ch => JsString.isQuote ch = false) (JsString.chars q)
       ∧ ∃ before after,
           JsString.chars responseText
           = before ++ JsString.chars q ++ after.
Proof.
  simpl in Ha.
  destruct (JsString.searchPhrase (JsString.chars responseText)) as [q|] eqn:Hq;
    [| by apply elem_of_nil in Ha].
  apply list_elem_of_singleton in Ha as ->.
  destruct (searchPhrase_capture _ _ Hq) as (Hne & Hquote & before & after & E).
  exists (string_of_list_ascii q).
  unfold JsString.chars in *. rewrite list_ascii_of_string_of_list_ascii.
  split; [reflexivity |]. split; [| split; [exact Hquote | by eexists _, _]].
  destruct q; [done | discriminate].
Qed.

Lemma search_query_is_quoted_piece_witness :
  ∃ q, searchAction "red dress" = searchAction q
       ∧ q ≠ EmptyString
       ∧ Forall (fun ch => JsString.isQuote ch = false) (JsString.chars q)
       ∧ ∃ before after,
           JsString.chars "Searching for 'red dress' now"
           = before ++ JsString.chars q ++ after.
Proof.
  apply (search_query_is_quoted_piece "Searching for 'red dress' now"
           {| ctx_customerId := None; ctx_customerName := None;
              ctx_language := None; ctx_conversationHistory := None;
              ctx_currentProducts := None; ctx_cartItems := None;
              ctx_funnelStage := None |}
           (searchAction "red dress")).
  vm_compute. apply list_elem_of_here.
Defined.

(** X20. With the engine and the dispatcher put together outside the
    route: when the intent is [add_to_cart] and the context lists
    current products, the first of them (its id being non-empty) is
    suggested and dispatch records it as discussed in the stored
    session. *)
Theorem add_to_cart_records_first_product (σ : Store) (id : string)
    (s : VoiceSession) (responseText : string) (c : AssistantContext)
    (p : ProductContext) (others : list ProductContext)
    (Hs : σ !! id = Some s)
    (Hproducts : ctx_currentProducts c = Some (p :: others))
    (Hid : product_id p ≠ EmptyString) :
  extractActions responseText add_to_cart c
  = [cartAction (Some (productData (product_id p)))]
  ∧ ∃ s',
      processSuggestedActions id (extractActions responseText add_to_cart c) σ
      = (Returned tt, <[id := s']> σ)
      ∧ product_id p ∈ productsDiscussed (analytics s').
Proof.
  simpl. rewrite Hproducts. split; [reflexivity |].
  simpl. unfold mbind, Js_bind.
  unfold handleAction. simpl.
  destruct (product_id p) as [|c0 n0] eqn:Hp; [done |].
  rewrite (trackProductDiscussion_stored _ _ _ Hs).
  unfold includes. case_bool_decide as Hin.
  - exists s. by rewrite insert_id.
  - eexists. split; [reflexivity |]. simpl.
    rewrite elem_of_app, list_elem_of_singleton. by right.
Qed.

Lemma add_to_cart_records_first_product_witness :
  ∃ s',
    processSuggestedActions "voice_1"
      (extractActions "Sure" add_to_cart
         {| ctx_customerId := None; ctx_customerName := None;
            ctx_language := None; ctx_conversationHistory := None;
            ctx_currentProducts :=
              Some [ {| product_id := "p1"; product_title := "Red dress";
                        product_price := "10.00"; product_available := true |} ];
            ctx_cartItems := None; ctx_funnelStage := None |})
      {[ "voice_1"%string := sampleSession ]}
    = (Returned tt, <[ "voice_1"%string := s' ]> {[ "voice_1"%string := sampleSession ]})
    ∧ "p1"%string ∈ productsDiscussed (analytics s').
Proof.
  assert (Hs : ({[ "voice_1"%string := sampleSession ]} : Store) !! "voice_1"%string
               = Some sampleSession) by (vm_compute; reflexivity).
  assert (Hid : "p1"%string ≠ EmptyString) by discriminate.
  exact (proj2 (add_to_cart_records_first_product
                  {[ "voice_1"%string := sampleSession ]} "voice_1" sampleSession
                  "Sure"
                  {| ctx_customerId := None; ctx_customerName := None;
                     ctx_language := None; ctx_conversationHistory := None;
                     ctx_currentProducts :=
                       Some [ {| product_id := "p1"; product_title := "Red dress";
                                 product_price := "10.00";
                                 product_available := true |} ];
                     ctx_cartItems := None; ctx_funnelStage := None |}
                  {| product_id := "p1"; product_title := "Red dress";
                     product_price := "10.00"; product_available := true |}
                  [] Hs eq_refl Hid)).
Defined.

(* ===================================================================== *)
(** * The transcriber *)
(* ===================================================================== *)

Lemma append_empty a b : String.append a b = EmptyString → b = EmptyString.
Proof. destruct a; simpl; [done | discriminate]. Qed.

Lemma joinLines_two x y rest : joinLines (x :: y :: rest) ≠ EmptyString.
Proof.
  simpl. intros H. apply append_empty in H. discriminate.
Qed.

Example two_silent_results :
  transcribeAudio None
    (Returned {| results := Some [noAlternative; noAlternative] |})
  = Returned {| spoken := {| transcript := newline;
                             transcript_confidence := QArith_base.Qmake 0 1 |};
                spoken_languageCode := "en-US" |}.
Proof. reflexivity. Qed.

Example two_results_joined :
  (fun t => transcript (spoken t)) <$>
    match transcribeAudio (Some "fr-FR"%string)
            (Returned {| results := Some [saying "find me"; saying "a red dress"] |})
    with Returned t => Some t | Thrown _ => None end
  = Some (String.append "find me" (String.append newline "a red dress")).
Proof. reflexivity. Qed.

(** X21. [transcribeAudio] turns every failure of the speech client into
    its own error, and otherwise returns. The transcript it returns is
    empty exactly when the response has no result at all, or a single
    result whose first alternative has no text; two or more results,
    even silent ones, give a non-empty transcript (their texts joined by
    line breaks). *)
Theorem transcribeAudio_empty_transcript (languageCode : option string)
    (recognize : Outcome RecognizeResponse) :
  match recognize with
  | Thrown _ => transcribeAudio languageCode recognize = Thrown TranscribeFailed
  | Returned response =>
      ∃ t, transcribeAudio languageCode recognize = Returned t
           ∧ (transcript (spoken t) = EmptyString
              ↔ match results response with
                | None | Some [] => True
                | Some [r] => default EmptyString (firstTranscript r) = EmptyString
                | Some (_ :: _ :: _) => False
                end)
  end.
Proof.
  destruct recognize as [response|e]; [| reflexivity].
  eexists; split; [reflexivity |]. simpl.
  destruct (results response) as [[|r [|r' rs]]|]; simpl; try done.
  split; [| done]. intros H. by apply append_empty in H.
Qed.

(** X22. In the route, audio in which the speech client finds no result
    ends the turn with the empty-transcript error, and a failure of the
    speech client ends it with status 500; in both cases the collection
    is left as it was. *)
Theorem silent_or_failed_audio (env : TurnEnv) (req : TurnRequest)
    (σ : Store) (id : string) (s : VoiceSession)
    (recognize : Outcome RecognizeResponse)
    (Hs : σ !! id = Some s) (Hreq : turnFor req id)
    (Htr : env_transcription env = transcribeForTurn req s recognize) :
  match recognize with
  | Returned response =>
      match results response with
      | None | Some [] =>
          processAudio env req σ
          = (JsonError 400 "Could not transcribe audio", σ)
      | Some (_ :: _) => True
      end
  | Thrown _ =>
      processAudio env req σ = (JsonError 500 "Failed to process audio", σ)
  end.
Proof.
  destruct Hreq as (Hm & [au Hau] & Hid & Hne).
  unfold processAudio, processAudioTry. rewrite Hm, Hau, Hid. simpl.
  destruct id as [|c0 id0]; [done |].
  run_js. rewrite Hs. run_js. rewrite Htr.
  destruct recognize as [response|e]; simpl; [| reflexivity].
  destruct (results response) as [[|r rs]|] eqn:Hr; simpl;
    rewrite ?Hr; done.
Qed.

Lemma silent_or_failed_audio_witness :
  processAudio
    {| env_transcription :=
         transcribeForTurn (postAudio "voice_1") sampleSession
           (Returned {| results := Some [] |});
       env_customerQuery := Thrown CollaboratorFailed;
       env_model := ModelThrows;
       env_clockUser := 2000; env_clockAssistant := 3000 |}
    (postAudio "voice_1") {[ "voice_1"%string := sampleSession ]}
  = (JsonError 400 "Could not transcribe audio",
     {[ "voice_1"%string := sampleSession ]}).
Proof.
  apply (silent_or_failed_audio
           {| env_transcription :=
                transcribeForTurn (postAudio "voice_1") sampleSession
                  (Returned {| results := Some [] |});
              env_customerQuery := Thrown CollaboratorFailed;
              env_model := ModelThrows;
              env_clockUser := 2000; env_clockAssistant := 3000 |}
           (postAudio "voice_1") {[ "voice_1"%string := sampleSession ]}
           "voice_1" sampleSession (Returned {| results := Some [] |})).
  - vm_compute. reflexivity.
  - repeat split; [by eexists | discriminate].
  - reflexivity.
Defined.

(* ===================================================================== *)
(** * The webhook *)
(* ===================================================================== *)

(** X23. [triggerWebhook] reports success exactly when the webhook was
    called or the event was logged. The webhook counts as called only
    when a URL is configured and the call returned an ok response;
    without a URL no error is reported; without a pool or a table
    nothing is logged, so that, called the way the voice routes call it,
    it succeeds exactly when the webhook was called. *)
Theorem triggerWebhook_success (webhookUrl : option string)
    (payloadJson : Outcome string) (postgres : option PgPool)
    (logTable : option string) (fetched : Outcome FetchResponse) :
  let r := triggerWebhook webhookUrl payloadJson postgres logTable fetched in
  wh_success r = webhookCalled r || logged r
  ∧ (webhookCalled r = true
     ↔ truthyString webhookUrl = true
       ∧ (∃ json, payloadJson = Returned json)
       ∧ ∃ response, fetched = Returned response ∧ fetch_ok response = true)
  ∧ (truthyString webhookUrl = false → wh_error r = None)
  ∧ (postgres = None ∨ truthyString logTable = false →
     logged r = false ∧ wh_success r = webhookCalled r).
Proof.
  unfold triggerWebhook. cbv zeta.
  set (wasLogged := match postgres with Some _ => _ | None => false end).
  assert (Hlog : postgres = None ∨ truthyString logTable = false →
                 wasLogged = false).
  { subst wasLogged. intros [-> | H]; [done |].
    destruct postgres; [by rewrite H | done]. }
  clearbody wasLogged.
  destruct (truthyString webhookUrl);
    [destruct payloadJson as [json|e];
     [destruct fetched as [response|e];
      [destruct (fetch_ok response) eqn:Hok |] |] |];
    simpl; (split; [by rewrite ?orb_true_l, ?orb_false_l |]);
    (split; [| split; [done |
       intros H; rewrite (Hlog H); split; [done | by rewrite ?(Hlog H)]]]).
  all: split; [try discriminate | ].
  all: try (intros (_ & [? ?] & [? [? ?]]); congruence).
  all: try (intros (? & _); discriminate).
  intros _. split; [done |]. split; [by eexists |]. by eexists.
Qed.

Example webhook_not_configured :
  triggerWebhook (Some EmptyString) (Returned "{}"%string) None None
    (Thrown CollaboratorFailed)
  = {| wh_success := false; webhookCalled := false; logged := false;
       wh_error := None |}.
Proof. reflexivity. Qed.

(* ===================================================================== *)
(** * The voice add-to-cart route *)
(* ===================================================================== *)

(** X25. The voice add-to-cart route writes the collection in one case
    only: on a success for a stored session, where it adds one to the
    conversion counter of that session and changes nothing else. Every
    error answer, and a success without a session id or for an unknown
    one, leaves the collection as it was. *)
Theorem addToCart_tracks_conversion (env : AddToCartEnv)
    (req : AddToCartRequest) (σ : Store) :
  match addToCart env req σ with
  | (JsonError _ _, σ') => σ' = σ
  | (Json body, σ') =>
      match atc_sessionId req with
      | Some (String _ _ as id) =>
          match σ !! id with
          | Some s =>
              σ' = <[id := setConversionsAttempted
                             (conversionsAttempted (analytics s) + 1) s]> σ
          | None => σ' = σ
          end
      | _ => σ' = σ
      end
  end.
Proof.
  unfold addToCart.
  destruct (String.eqb (atc_method req) "POST"); simpl; [| reflexivity].
  unfold addToCartTry.
  destruct (atc_variantId req) as [[|c v]|]; try reflexivity.
  run_js. destruct (atc_isLoggedIn env) as [[|]|e]; simpl; try reflexivity.
  destruct (atc_addLines env _ _) as [answer|e]; simpl; [| reflexivity].
  destruct (lines_errors answer) as [[|e0 es]|]; try reflexivity.
  - destruct (atc_sessionId req) as [[|c0 id0]|]; try reflexivity.
    run_js. unfold trackConversionAttempt. run_js.
    destruct (σ !! String c0 id0) as [s|] eqn:Hs; run_js; rewrite ?Hs; reflexivity.
  - destruct (atc_sessionId req) as [[|c0 id0]|]; try reflexivity.
    run_js. unfold trackConversionAttempt. run_js.
    destruct (σ !! String c0 id0) as [s|] eqn:Hs; run_js; rewrite ?Hs; reflexivity.
Qed.

Example addToCart_logged_out :
  addToCart {| atc_isLoggedIn := Returned false;
               atc_addLines := atc_addLines cartReady |}
    (postAddToCart (Some "voice_1"%string))
    {[ "voice_1"%string := sampleSession ]}
  = (JsonError 401 "Authentication required",
     {[ "voice_1"%string := sampleSession ]}).
Proof. reflexivity. Qed.

Example addToCart_counts :
  (conversionsAttempted ∘ analytics) <$>
    ((addToCart cartReady (postAddToCart (Some "voice_1"%string))
        {[ "voice_1"%string := sampleSession ]}).2 !! "voice_1"%string)
  = Some 1%Z.
Proof. vm_compute. reflexivity. Qed.

(* ===================================================================== *)
(** * The counters after a turn *)
(* ===================================================================== *)

Lemma afterTurn_total env tr s :
  totalMessages (metadata (afterTurn env tr s))
  = (totalMessages (metadata s) + 2)%Z.
Proof.
  unfold afterTurn. rewrite appended_intent.
  repeat case_match; simpl; lia.
Qed.

(* ===================================================================== *)
(** * Ending a session without messages *)
(* ===================================================================== *)

Example end_without_messages :
  (endSession (endingAt 9000) (postEnd "voice_1" (Some 5%Z))
     {[ "voice_1"%string := sampleSession ]}).1
  = Json {| end_summary := None;
            end_analytics :=
              {| snap_totalMessages := 0; snap_intents := ∅;
                 snap_productsDiscussed := []; snap_conversionsAttempted := 0 |} |}.
Proof. vm_compute. reflexivity. Qed.

(* ===================================================================== *)
(** * Keywords are whole words *)
(* ===================================================================== *)

Lemma stripPrefix_Some w s rest :
  JsString.stripPrefix w s = Some rest ↔ s = w ++ rest.
Proof.
  revert s. induction w as [|a w IH]; intros s; simpl.
  - split; [by intros [= ->] | by intros ->].
  - destruct s as [|c s]; [split; discriminate |].
    destruct (Ascii.eqb a c) eqn:E.
    + apply Ascii.eqb_eq in E as ->. rewrite IH.
      split; [by intros -> | by intros [= ->]].
    + apply Ascii.eqb_neq in E. split; [discriminate | intros [= ? ?]; done].
Qed.

Lemma lastOr_cons before c a : lastOr before (c :: a) = lastOr (Some c) a.
Proof. unfold lastOr. rewrite last_cons. by destruct (last a). Qed.

Lemma matchAltAt_iff before s w :
  JsString.matchAltAt before s w = true
  ↔ ∃ b, s = JsString.chars w ++ b
         ∧ JsString.wordBoundary before (head s) = true
         ∧ JsString.wordBoundary (lastOr before (JsString.chars w)) (head b)
           = true.
Proof.
  unfold JsString.matchAltAt, lastOr. rewrite andb_true_iff. split.
  - intros [H1 H2].
    destruct (JsString.stripPrefix _ s) as [rest|] eqn:Hp; [| discriminate].
    apply stripPrefix_Some in Hp. by exists rest.
  - intros (b & Hs & H1 & H2). split; [exact H1 |].
    apply stripPrefix_Some in Hs. by rewrite Hs.
Qed.

(** The matcher finds a keyword exactly where one stands between two
    word boundaries. *)
Lemma matchWordsFrom_iff alts before s :
  JsString.matchWordsFrom alts before s = true
  ↔ ∃ w a b,
      w ∈ alts ∧ s = a ++ JsString.chars w ++ b
      ∧ JsString.wordBoundary (lastOr before a)
          (head (JsString.chars w ++ b)) = true
      ∧ JsString.wordBoundary
          (lastOr (lastOr before a) (JsString.chars w)) (head b) = true.
Proof.
  assert (Hhere : ∀ before s,
    existsb (JsString.matchAltAt before s) alts = true
    ↔ ∃ w b, w ∈ alts ∧ s = JsString.chars w ++ b
             ∧ JsString.wordBoundary before (head s) = true
             ∧ JsString.wordBoundary (lastOr before (JsString.chars w)) (head b)
               = true).
  { intros bf t. rewrite existsb_exists. split.
    - intros (w & Hin & (b & ? & ? & ?)%matchAltAt_iff).
      exists w, b. by rewrite list_elem_of_In.
    - intros (w & b & Hin & ? & ? & ?). exists w.
      split; [by apply list_elem_of_In |]. apply matchAltAt_iff. by exists b. }
  revert before. induction s as [|c s IH]; intros before.
  - simpl. rewrite orb_false_r, Hhere. split.
    + intros (w & b & Hin & Hs & H1 & H2). exists w, [], b.
      by rewrite <- Hs.
    + intros (w & a & b & Hin & Hs & H1 & H2).
      destruct a; [| discriminate]. simpl in Hs. exists w, b.
      by rewrite <- Hs in H1.
  - simpl. rewrite orb_true_iff, Hhere, IH. split.
    + intros [(w & b & Hin & Hs & H1 & H2) | (w & a & b & Hin & Hs & H1 & H2)].
      * exists w, [], b. simpl. by rewrite <- Hs.
      * exists w, (c :: a), b. rewrite lastOr_cons. simpl. by rewrite Hs.
    + intros (w & a & b & Hin & Hs & H1 & H2). destruct a as [|c' a].
      * left. exists w, b. simpl in Hs. by rewrite <- Hs in H1.
      * right. injection Hs as -> ->. rewrite lastOr_cons in H1, H2.
        by exists w, a, b.
Qed.

Lemma matchWords_one_word alts s :
  Forall (fun c => JsString.isWordChar c = true) s → s ≠ [] →
  Forall (fun w => w ≠ EmptyString) alts →
  JsString.matchWords alts s = bool_decide (string_of_list_ascii s ∈ alts).
Proof.
  intros Hword Hne Halts.
  rewrite Forall_forall in Hword.
  apply eq_true_iff_eq. rewrite bool_decide_eq_true.
  unfold JsString.matchWords. rewrite matchWordsFrom_iff. split.
  - intros (w & a & b & Hin & Hs & H1 & H2).
    assert (Hw : w ≠ EmptyString)
      by (rewrite Forall_forall in Halts; by apply Halts).
    unfold JsString.chars in *.
    destruct (list_ascii_of_string w) as [|cw w'] eqn:Hcw.
    { destruct w; [done | discriminate]. }
    assert (Hcw_word : JsString.isWordChar cw = true).
    { apply Hword. rewrite Hs. set_solver. }
    assert (Ha : a = []).
    { destruct (last a) as [x|] eqn:Hl; [| by apply last_None].
      exfalso. unfold lastOr in H1. rewrite Hl in H1. simpl in H1.
      apply last_Some in Hl as [a' ->].
      unfold JsString.wordBoundary, JsString.isWordAt in H1.
      rewrite Hcw_word, (Hword x) in H1; [discriminate |].
      rewrite Hs. set_solver. }
    subst a. simpl in *.
    assert (Hb : b = []).
    { destruct b as [|z b]; [done |]. exfalso.
      unfold lastOr in H2.
      destruct (last (cw :: w')) as [y|] eqn:Hl;
        [| apply last_None in Hl; discriminate].
      apply last_Some in Hl as [l' Hl].
      unfold JsString.wordBoundary, JsString.isWordAt in H2. simpl in H2.
      rewrite (Hword y), (Hword z) in H2; [discriminate | |].
      - rewrite Hs. set_solver.
      - rewrite Hs. change (y ∈ (cw :: w') ++ z :: b). rewrite Hl. set_solver. }
    subst b. rewrite app_nil_r, <- Hcw in Hs.
    by rewrite Hs, string_of_list_ascii_of_string.
  - intros Hin. exists (string_of_list_ascii s), [], [].
    unfold JsString.chars. rewrite list_ascii_of_string_of_list_ascii.
    split; [exact Hin |]. split; [by rewrite app_nil_r |].
    rewrite app_nil_r. unfold lastOr. simpl.
    destruct s as [|c s]; [done |].
    unfold JsString.wordBoundary, JsString.isWordAt.
    change (head (c :: s)) with (Some c). cbv beta iota.
    rewrite (Hword c) by set_solver. split; [reflexivity |].
    destruct (last (c :: s)) as [y|] eqn:Hl;
      [| apply last_None in Hl; discriminate].
    apply last_Some in Hl as [l' Hl].
    rewrite (Hword y); [reflexivity |]. rewrite Hl. set_solver.
Qed.

Lemma keywords_not_empty :
  Forall (fun l => Forall (fun w => w ≠ EmptyString) l)
    [searchVerbs; searchNouns; cartVerbs; cartNouns; checkoutWords;
     orderNouns; orderQuestions; funnelInputWords].
Proof. repeat constructor; discriminate. Qed.

(** Going through the keywords of a list one by one. *)
Ltac each_keyword H :=
  repeat (apply elem_of_cons in H as [-> | H]);
  [.. | by apply elem_of_nil in H].

Ltac not_listed H :=
  repeat (apply elem_of_cons in H as [H | H]; [discriminate H |]);
  by apply elem_of_nil in H.

Lemma search_lists_disjoint (x : string) :
  bool_decide (x ∈ searchVerbs) && bool_decide (x ∈ searchNouns) = false.
Proof.
  case_bool_decide as H1; [| done]. case_bool_decide as H2; [| done].
  exfalso. unfold searchVerbs in H1. each_keyword H1; not_listed H2.
Qed.

Lemma cart_lists_disjoint (x : string) :
  bool_decide (x ∈ cartVerbs) && bool_decide (x ∈ cartNouns) = false.
Proof.
  case_bool_decide as H1; [| done]. case_bool_decide as H2; [| done].
  exfalso. unfold cartVerbs in H1. each_keyword H1; not_listed H2.
Qed.

Lemma order_lists_share_status (x : string) :
  bool_decide (x ∈ orderNouns) && bool_decide (x ∈ orderQuestions)
  = bool_decide (x = "status"%string).
Proof.
  apply eq_true_iff_eq. rewrite andb_true_iff, !bool_decide_eq_true. split.
  - intros [H1 H2]. unfold orderNouns in H1.
    each_keyword H1; try reflexivity; not_listed H2.
  - intros ->. split; repeat constructor.
Qed.

(** X28. Keywords count as whole words only. For an utterance that is
    one word (letters, digits and underscores), the classifier comes
    down to looking the lower-cased word up: [checkout] when it is one
    of the checkout words, [order_status] when it is [status], and
    [funnel_navigation] when it is one of next, continue, proceed, back
    or the reply names a step, stage or funnel; otherwise
    [general_help]. A one-word utterance is never a product search nor
    an add-to-cart. *)
Theorem one_word_utterance (userInput responseText : string)
    (Hword : Forall (fun c => JsString.isWordChar c = true)
               (JsString.toLowerCase userInput))
    (Hne : userInput ≠ EmptyString) :
  detectIntent userInput responseText
  = if bool_decide (lowered userInput ∈ checkoutWords) then checkout
    else if bool_decide (lowered userInput = "status"%string) then order_status
    else if bool_decide (lowered userInput ∈ funnelInputWords)
            || replyNamesFunnel responseText
    then funnel_navigation
    else general_help.
Proof.
  assert (Hs : JsString.toLowerCase userInput ≠ []).
  { destruct userInput; [done | discriminate]. }
  pose proof keywords_not_empty as Hk.
  repeat (apply Forall_cons in Hk as [? Hk]).
  unfold detectIntent, replyNamesFunnel. cbv zeta.
  rewrite !(matchWords_one_word _ (JsString.toLowerCase userInput)) by done.
  fold (lowered userInput).
  rewrite search_lists_disjoint, cart_lists_disjoint, order_lists_share_status.
  reflexivity.
Qed.

Lemma one_word_utterance_witness :
  detectIntent "Checkout" "Ok"
  = if bool_decide (lowered "Checkout" ∈ checkoutWords) then checkout
    else if bool_decide (lowered "Checkout" = "status"%string) then order_status
    else if bool_decide (lowered "Checkout" ∈ funnelInputWords)
            || replyNamesFunnel "Ok"
    then funnel_navigation
    else general_help.
Proof.
  apply (one_word_utterance "Checkout" "Ok").
  - vm_compute. repeat constructor.
  - discriminate.
Defined.

Example keyword_inside_a_word :
  detectIntent "payment" EmptyString = general_help
  ∧ detectIntent "pay" EmptyString = checkout.
Proof. split; reflexivity. Qed.

(* ===================================================================== *)
(** * The JSON text of a model reply *)
(* ===================================================================== *)

Lemma fromFirstOpen_Some s r :
  fromFirstOpen s = Some r →
  ∃ a open rest, s = a ++ r ∧ r = open :: rest ∧ isOpenBrace open = true
                 ∧ Forall (fun c => isOpenBrace c = false) a.
Proof.
  induction s as [|c s IH]; simpl; [discriminate |].
  destruct (isOpenBrace c) eqn:Hc.
  - intros [= <-]. by exists [], c, s.
  - intros (a & o & rest & -> & -> & Ho & Ha)%IH.
    exists (c :: a), o, rest. repeat split; [done | by constructor].
Qed.

Lemma upToLastClose_Some s p :
  upToLastClose s = Some p →
  ∃ body close b, s = p ++ b ∧ p = body ++ [close]
                  ∧ isCloseBrace close = true
                  ∧ Forall (fun c => isCloseBrace c = false) b.
Proof.
  revert p. induction s as [|c s IH]; intros p; simpl; [discriminate |].
  destruct (upToLastClose s) as [p'|] eqn:Hp.
  - intros [= <-]. destruct (IH p' eq_refl) as (body & cl & b & -> & -> & Hcl & Hb).
    by exists (c :: body), cl, b.
  - destruct (isCloseBrace c) eqn:Hc; [| discriminate]. intros [= <-].
    exists [], c, s. repeat split; [done |].
    clear IH. induction s as [|x s IHs]; [constructor |].
    simpl in Hp. destruct (upToLastClose s); [discriminate |].
    destruct (isCloseBrace x) eqn:Hx; [discriminate |].
    constructor; [done | by apply IHs].
Qed.

Lemma upToLastClose_found x c b :
  isCloseBrace c = true → is_Some (upToLastClose (x ++ c :: b)).
Proof.
  intros Hc. induction x as [|y x IH]; simpl.
  - destruct (upToLastClose b); [by eexists |]. rewrite Hc. by eexists.
  - destruct IH as [p ->]. by eexists.
Qed.

Lemma fromFirstOpen_found a o t :
  isOpenBrace o = true →
  ∃ open pre, fromFirstOpen (a ++ o :: t) = Some (open :: pre ++ t).
Proof.
  intros Ho. induction a as [|c a IH]; simpl.
  - rewrite Ho. by exists o, [].
  - destruct (isOpenBrace c); [| exact IH].
    exists c, (a ++ [o]). by rewrite <- app_assoc.
Qed.

(** X29. The text [summarizeConversation] hands to the JSON parser is
    the piece of the model's reply that runs from its first opening
    brace to its last closing brace; and when the reply has no closing
    brace behind an opening one, nothing is parsed and the fixed
    [Conversation summary unavailable] result is returned. *)
Theorem jsonSpan_first_to_last (s : list ascii) :
  match jsonSpan s with
  | Some j =>
      ∃ a open body close b,
        s = a ++ j ++ b ∧ j = open :: body ++ [close]
        ∧ isOpenBrace open = true ∧ isCloseBrace close = true
        ∧ Forall (fun c => isOpenBrace c = false) a
        ∧ Forall (fun c => isCloseBrace c = false) b
  | None =>
      (∀ a open body close b,
         isOpenBrace open = true → isCloseBrace close = true →
         s ≠ a ++ open :: body ++ close :: b)
      ∧ ∀ parse tokens,
          summarizeConversation parse
            (ModelReplies (Some (string_of_list_ascii s)) tokens)
          = {| summary_text := "Conversation summary unavailable";
               summary_keyTopics := []; summary_outcome := "Unknown" |}
  end.
Proof.
  unfold jsonSpan.
  destruct (fromFirstOpen s) as [r|] eqn:Hf.
  - destruct (fromFirstOpen_Some _ _ Hf) as (a & o & rest & -> & -> & Ho & Ha).
    destruct (upToLastClose rest) as [p|] eqn:Hp.
    + destruct (upToLastClose_Some _ _ Hp) as (body & cl & b & -> & -> & Hcl & Hb).
      exists a, o, body, cl, b. repeat split; done.
    + assert (Hnone : ∀ a0 open body close b,
                isOpenBrace open = true → isCloseBrace close = true →
                a ++ o :: rest ≠ a0 ++ open :: body ++ close :: b).
      { intros a0 o' body cl b Ho' Hcl E.
        destruct (fromFirstOpen_found a0 o' (body ++ cl :: b) Ho')
          as (o2 & pre & Hf2).
        rewrite <- E, Hf in Hf2. injection Hf2 as -> ->.
        destruct (upToLastClose_found (pre ++ body) cl b Hcl) as [p Hp'].
        rewrite <- app_assoc in Hp'. congruence. }
      split; [exact Hnone |]. intros parse tokens.
      unfold summarizeConversation, jsonSpan.
      assert (Hs : list_ascii_of_string
                     (orString (Some (string_of_list_ascii (a ++ o :: rest)))
                        EmptyString) = a ++ o :: rest).
      { destruct (string_of_list_ascii (a ++ o :: rest)) eqn:E.
        - apply (f_equal list_ascii_of_string) in E.
          rewrite list_ascii_of_string_of_list_ascii in E.
          by destruct a.
        - simpl orString. rewrite <- E.
          apply list_ascii_of_string_of_list_ascii. }
      by rewrite Hs, Hf, Hp.
  - assert (Hnone : ∀ a0 open body close b,
              isOpenBrace open = true → isCloseBrace close = true →
              s ≠ a0 ++ open :: body ++ close :: b).
    { intros a0 o' body cl b Ho' Hcl ->.
      destruct (fromFirstOpen_found a0 o' (body ++ cl :: b) Ho')
        as (o2 & pre & Hf2). congruence. }
    split; [exact Hnone |]. intros parse tokens.
    unfold summarizeConversation, jsonSpan.
    assert (Hs : fromFirstOpen
                   (list_ascii_of_string
                      (orString (Some (string_of_list_ascii s)) EmptyString))
                 = None).
    { destruct (string_of_list_ascii s) eqn:E; [reflexivity |].
      simpl orString. by rewrite <- E, list_ascii_of_string_of_list_ascii. }
    by rewrite Hs.
Qed.

Example jsonSpan_in_prose :
  jsonSpan (list_ascii_of_string "Here you go: {a: {b: 1}} thanks}!")
  = Some (list_ascii_of_string "{a: {b: 1}} thanks}").
Proof. reflexivity. Qed.

Example jsonSpan_close_before_open :
  jsonSpan (list_ascii_of_string "} and then {") = None.
Proof. reflexivity. Qed.

(* ===================================================================== *)
(** * The turn with validated writes *)
(* ===================================================================== *)

Lemma strict_updateSessionContext_stored (σ : Store) id s p :
  σ !! id = Some s →
  Strict.updateSessionContext id p σ
  = if Strict.storablePatch p
    then (Returned tt, <[id := setContext (spreadContext (context s) p) s]> σ)
    else (Thrown InvalidValue, σ).
Proof.
  intros Hs. unfold Strict.updateSessionContext. run_js. rewrite Hs.
  destruct (Strict.storablePatch p); run_js; by rewrite ?Hs.
Qed.

Lemma strict_handleAction_stored (σ : Store) id s a :
  σ !! id = Some s → handleable a →
  ∃ s', Strict.handleAction id a σ = (Returned tt, <[id := s']> σ)
        ∧ keepsTurns s s'.
Proof.
  intros Hs (d & Hd & Hstage). unfold Strict.handleAction. rewrite Hd.
  assert (Hid : (Returned tt, σ) = (Returned tt, <[id := s]> σ)
                ∧ keepsTurns s s).
  { split; [by rewrite insert_id | apply keepsTurns_refl]. }
  destruct (String.eqb (type a) "add_to_cart") eqn:E1.
  - destruct (data_productId d) as [[|c0 p0]|]; try (exists s; exact Hid).
    rewrite (trackProductDiscussion_stored _ _ _ Hs).
    case_match; [by exists s |].
    eexists; split; [reflexivity | by repeat split].
  - destruct (String.eqb (type a) "search_products"); [exists s; exact Hid |].
    destruct (String.eqb (type a) "navigate_funnel") eqn:E3;
      [| exists s; exact Hid].
    apply String.eqb_eq in E3. destruct (Hstage E3) as [st Hst].
    rewrite (strict_updateSessionContext_stored _ _ _ _ Hs), Hst. simpl.
    eexists; split; [reflexivity | by repeat split].
Qed.

Lemma strict_processSuggestedActions_stored actions : ∀ (σ : Store) id s,
  σ !! id = Some s → Forall handleable actions →
  ∃ s', Strict.processSuggestedActions id actions σ
        = (Returned tt, <[id := s']> σ)
        ∧ keepsTurns s s'.
Proof.
  induction actions as [|a rest IH]; intros σ id s Hs Hall.
  - exists s. split; [by rewrite insert_id | apply keepsTurns_refl].
  - inversion Hall as [|? ? Ha Hrest]; subst.
    destruct (strict_handleAction_stored σ id s a Hs Ha) as (s1 & E1 & K1).
    destruct (IH (<[id := s1]> σ) id s1 (lookup_insert_eq _ _ _) Hrest)
      as (s2 & E2 & K2).
    exists s2. split; [| by eapply keepsTurns_trans].
    simpl. unfold mbind, Js_bind. rewrite E1, E2.
    by rewrite insert_insert_eq.
Qed.

Lemma strict_processSuggestedActions_app id l1 l2 (σ : Store) :
  Strict.processSuggestedActions id (l1 ++ l2) σ
  = match Strict.processSuggestedActions id l1 σ with
    | (Returned _, σ1) => Strict.processSuggestedActions id l2 σ1
    | (Thrown e, σ1) => (Thrown e, σ1)
    end.
Proof.
  revert σ. induction l1 as [|a l1 IH]; intros σ; [reflexivity |].
  simpl. unfold mbind, Js_bind.
  destruct (Strict.handleAction id a σ) as [[[]|e] σ1]; [apply IH | reflexivity].
Qed.

(** Dispatch of what the engine suggested inside the route: the
    engine's funnel action has no stage, and the store refuses it. *)
Lemma strict_dispatch_of_reply (σ : Store) id s u c m :
  σ !! id = Some s → ctx_currentProducts c = None →
  Strict.processSuggestedActions id
    (default [] (suggestedActions (generateAssistantResponse u c m))) σ
  = if bool_decide (intent (generateAssistantResponse u c m) = funnel_navigation)
    then (Thrown InvalidValue, σ)
    else (Returned tt, σ).
Proof.
  intros Hs Hc. destruct m as [|t n]; simpl; [reflexivity |].
  destruct (detectIntent u (orString t EmptyString)); simpl;
    rewrite ?Hc; try reflexivity.
  - destruct (JsString.searchPhrase _); reflexivity.
  - unfold mbind, Js_bind.
    change (Strict.handleAction id _ σ)
      with (Strict.updateSessionContext id (funnelPatch None) σ).
    by rewrite (strict_updateSessionContext_stored _ _ _ _ Hs).
Qed.

Lemma strict_processAudio_exact env req (σ : Store) id s tr :
  σ !! id = Some s → turnFor req id →
  env_transcription env = Returned tr → transcript tr ≠ EmptyString →
  Strict.processAudio env req σ
  = if bool_decide (intent (turnReply env tr s) = funnel_navigation)
    then (JsonError 500 "Failed to process audio",
          <[id := withBothMessages env tr s]> σ)
    else (Json {| result_transcript := transcript tr;
                  result_confidence := transcript_confidence tr;
                  result_text := text (turnReply env tr s);
                  result_intent := intent (turnReply env tr s);
                  result_actions := suggestedActions (turnReply env tr s);
                  result_tokensUsed := tokensUsed (turnReply env tr s) |},
          <[id := afterTurn env tr s]> σ).
Proof.
  intros Hs (Hm & [au Hau] & Hid & Hne) Htr Hnz.
  unfold afterTurn, withBothMessages, turnReply.
  set (ai := generateAssistantResponse (transcript tr)
               (buildAssistantContext s (env_customerQuery env)) (env_model env)).
  set (s1 := appended (userMessage (transcript tr) (env_clockUser env)) None s).
  set (s2 := appended (assistantMessage (text ai) (env_clockAssistant env))
               (Some (intentName (intent ai))) s1).
  pose proof (strict_dispatch_of_reply (<[id := s2]> σ) id s2 (transcript tr)
                (buildAssistantContext s (env_customerQuery env)) (env_model env)
                (lookup_insert_eq _ _ _) eq_refl) as E3.
  fold ai in E3.
  unfold Strict.processAudio, Strict.processAudioTry. rewrite Hm, Hau, Hid. simpl.
  destruct id as [|c0 id0]; [done |].
  unfold mbind at 1. unfold Js_bind at 1. unfold getVoiceSession, docGet.
  rewrite Hs.
  unfold mbind at 1. unfold Js_bind at 1. unfold await. rewrite Htr.
  destruct (transcript tr) as [|c1 t1] eqn:Et; [done |].
  unfold mbind at 1. unfold Js_bind at 1.
  rewrite (addMessageToSession_stored _ _ _ Hs). fold s1.
  unfold mbind at 1. unfold Js_bind at 1.
  rewrite (addMessageToSession_stored _ _ s1 (lookup_insert_eq _ _ _)).
  rewrite insert_insert_eq.
  fold ai. fold s2.
  unfold mbind at 1. unfold Js_bind at 1. rewrite E3.
  destruct (bool_decide (intent ai = funnel_navigation)) eqn:Hf; [reflexivity |].
  unfold mbind at 1. unfold Js_bind at 1.
  destruct (bool_decide (intent ai = add_to_cart)
            || bool_decide (intent ai = checkout)).
  - rewrite (trackConversionAttempt_stored _ _ _ (lookup_insert_eq _ _ _)).
    by rewrite insert_insert_eq.
  - reflexivity.
Qed.

Lemma strict_processAudio_error_or_turn env req (σ : Store) :
  (∃ st e, Strict.processAudio env req σ = (JsonError st e, σ)
           ∧ st ∈ [405; 400; 404; 500]%Z)
  ∨ ∃ id s tr, σ !! id = Some s ∧ turnFor req id
               ∧ env_transcription env = Returned tr
               ∧ transcript tr ≠ EmptyString.
Proof.
  unfold Strict.processAudio.
  destruct (String.eqb (req_method req) "POST") eqn:Hm; simpl;
    [| left; eexists _, _; split; [reflexivity | set_solver]].
  apply String.eqb_eq in Hm. unfold Strict.processAudioTry.
  destruct (req_audio req) as [au|] eqn:Hau;
    [| left; eexists _, _; split; [reflexivity | set_solver]].
  destruct (req_sessionId req) as [[|c0 id0]|] eqn:Hid;
    try (left; eexists _, _; split; [reflexivity | set_solver]).
  run_js. destruct (σ !! String c0 id0) as [s|] eqn:Hs;
    [| left; eexists _, _; split; [reflexivity | set_solver]].
  run_js. destruct (env_transcription env) as [tr|e] eqn:Htr;
    [| left; eexists _, _; split; [reflexivity | set_solver]].
  destruct (transcript tr) as [|c1 t1] eqn:Et;
    [left; eexists _, _; split; [reflexivity | set_solver] |].
  right. exists (String c0 id0), s, tr.
  rewrite Et. repeat split; eauto; discriminate.
Qed.

Lemma withBothMessages_history env tr s :
  conversationHistory (withBothMessages env tr s)
  = conversationHistory s
    ++ [userMessage (transcript tr) (env_clockUser env);
        assistantMessage (text (turnReply env tr s)) (env_clockAssistant env)].
Proof.
  unfold withBothMessages. rewrite appended_intent. simpl.
  by rewrite <- app_assoc.
Qed.

Lemma withBothMessages_status env tr s :
  status (withBothMessages env tr s) = status s.
Proof. unfold withBothMessages. by rewrite appended_intent. Qed.

Lemma afterTurn_status env tr s : status (afterTurn env tr s) = status s.
Proof.
  unfold afterTurn. rewrite appended_intent. by repeat case_match.
Qed.

Example strict_funnel_turn :
  Strict.processAudio (hearing "next" (ModelReplies (Some "Ok"%string) None))
    (postAudio "voice_1") {[ "voice_1"%string := annSession ]}
  = (JsonError 500 "Failed to process audio",
     {[ "voice_1"%string :=
          withBothMessages (hearing "next" (ModelReplies (Some "Ok"%string) None))
            {| transcript := "next";
               transcript_confidence := QArith_base.Qmake 9 10 |}
            annSession ]}).
Proof. vm_compute. reflexivity. Qed.

(** The two renderings of the route agree on every request but a turn
    whose intent is [funnel_navigation]: no other turn hands the store
    an [undefined]. *)
Lemma strict_processAudio_agrees env req (σ : Store) :
  (∀ id s tr, σ !! id = Some s → turnFor req id →
              env_transcription env = Returned tr →
              transcript tr ≠ EmptyString →
              intent (turnReply env tr s) ≠ funnel_navigation) →
  Strict.processAudio env req σ = processAudio env req σ.
Proof.
  intros H.
  destruct (String.eqb (req_method req) "POST") eqn:Hm.
  2:{ unfold Strict.processAudio, processAudio. by rewrite Hm. }
  destruct (req_audio req) as [au|] eqn:Hau.
  2:{ unfold Strict.processAudio, processAudio,
             Strict.processAudioTry, processAudioTry.
      by rewrite Hm, Hau. }
  destruct (req_sessionId req) as [[|c0 id0]|] eqn:Hid.
  1,3: unfold Strict.processAudio, processAudio,
              Strict.processAudioTry, processAudioTry;
       by rewrite Hm, Hau, Hid.
  destruct (σ !! String c0 id0) as [s|] eqn:Hs.
  2:{ unfold Strict.processAudio, processAudio,
             Strict.processAudioTry, processAudioTry.
      rewrite Hm, Hau, Hid. run_js. by rewrite Hs. }
  destruct (env_transcription env) as [tr|e] eqn:Htr.
  2:{ unfold Strict.processAudio, processAudio,
             Strict.processAudioTry, processAudioTry.
      rewrite Hm, Hau, Hid. run_js. rewrite Hs. run_js. by rewrite Htr. }
  destruct (transcript tr) as [|c1 t1] eqn:Hnz.
  { unfold Strict.processAudio, processAudio,
           Strict.processAudioTry, processAudioTry.
    rewrite Hm, Hau, Hid. run_js. rewrite Hs. run_js. rewrite Htr.
    by rewrite Hnz. }
  apply String.eqb_eq in Hm.
  assert (Hreq : turnFor req (String c0 id0)) by (by repeat split; eauto).
  assert (Hsp : transcript tr ≠ EmptyString) by (by rewrite Hnz).
  rewrite (strict_processAudio_exact env req σ _ s tr Hs Hreq Htr Hsp).
  rewrite (processAudio_exact env req σ _ s tr Hs Hreq Htr Hsp).
  by rewrite bool_decide_eq_false_2 by eauto.
Qed.

(** C1 (amended). The turn pipeline does not read the state of the
    session and has no terminal-session error: on a stored session that
    is completed or abandoned, a turn with a non-empty transcript
    appends the user turn and the assistant turn to the history, in
    that order, and leaves the state what it was; and when the intent
    of the reply is not [funnel_navigation] the turn is answered with a
    success carrying that reply. *)
Theorem processTurn_ignores_terminal_state (env : TurnEnv) (req : TurnRequest)
    (σ : Store) (id : string) (s : VoiceSession) (tr : TranscriptionResult)
    (Hs : σ !! id = Some s) (Hterminal : isTerminal (status s) = true)
    (Hreq : turnFor req id)
    (Htr : env_transcription env = Returned tr)
    (Hspoken : transcript tr ≠ EmptyString) :
  ∃ s',
    (Strict.processAudio env req σ).2 = <[id := s']> σ
    ∧ conversationHistory s'
      = conversationHistory s
        ++ [userMessage (transcript tr) (env_clockUser env);
            assistantMessage (text (turnReply env tr s)) (env_clockAssistant env)]
    ∧ status s' = status s
    ∧ isTerminal (status s') = true
    ∧ (intent (turnReply env tr s) ≠ funnel_navigation →
       ∃ body,
         (Strict.processAudio env req σ).1 = Json body
         ∧ result_text body = text (turnReply env tr s)
         ∧ result_intent body = intent (turnReply env tr s)).
Proof.
  rewrite (strict_processAudio_exact env req σ id s tr Hs Hreq Htr Hspoken).
  case_bool_decide as Hf; simpl.
  - exists (withBothMessages env tr s).
    rewrite withBothMessages_history, withBothMessages_status.
    repeat split; done.
  - exists (afterTurn env tr s).
    rewrite afterTurn_history, afterTurn_status.
    repeat split; try done. intros _. by eexists.
Qed.

Lemma processTurn_ignores_terminal_state_witness :
  ∃ s',
    (Strict.processAudio (hearing "hello" (ModelReplies (Some "Hi"%string) None))
       (postAudio "voice_1") {[ "voice_1"%string := finishedAnnSession ]}).2
    = <[ "voice_1"%string := s' ]> {[ "voice_1"%string := finishedAnnSession ]}
    ∧ conversationHistory s'
      = conversationHistory finishedAnnSession
        ++ [userMessage "hello" 2000; assistantMessage "Hi" 3000]
    ∧ status s' = status finishedAnnSession
    ∧ isTerminal (status s') = true
    ∧ (general_help ≠ funnel_navigation →
       ∃ body,
         (Strict.processAudio (hearing "hello" (ModelReplies (Some "Hi"%string) None))
            (postAudio "voice_1") {[ "voice_1"%string := finishedAnnSession ]}).1
         = Json body
         ∧ result_text body = "Hi"%string
         ∧ result_intent body = general_help).
Proof.
  apply (processTurn_ignores_terminal_state
           (hearing "hello" (ModelReplies (Some "Hi"%string) None))
           (postAudio "voice_1") {[ "voice_1"%string := finishedAnnSession ]}
           "voice_1" finishedAnnSession
           {| transcript := "hello";
              transcript_confidence := QArith_base.Qmake 9 10 |}).
  - vm_compute. reflexivity.
  - reflexivity.
  - repeat split; [by eexists | discriminate].
  - reflexivity.
  - discriminate.
Defined.

(** C6 (counterexample). When the model call throws, the body of the
    answer has no list of suggested actions at all, not an empty one;
    a turn whose model call returns carries a list, here the empty one. *)
Lemma model_failure_has_no_action_list :
  (Strict.processAudio (hearing "hello" ModelThrows) (postAudio "voice_1")
     {[ "voice_1"%string := annSession ]}).1
  = Json {| result_transcript := "hello";
            result_confidence := QArith_base.Qmake 9 10;
            result_text := apology;
            result_intent := unknown;
            result_actions := None;
            result_tokensUsed := None |}
  ∧ (@None (list Action)) ≠ Some []
  ∧ (Strict.processAudio (hearing "hello" (ModelReplies (Some "Hi"%string) None))
       (postAudio "voice_1") {[ "voice_1"%string := annSession ]}).1
    = Json {| result_transcript := "hello";
              result_confidence := QArith_base.Qmake 9 10;
              result_text := "Hi";
              result_intent := general_help;
              result_actions := Some [];
              result_tokensUsed := None |}.
Proof.
  split; [vm_compute; reflexivity |].
  split; [discriminate | vm_compute; reflexivity].
Qed.

(** C6 (amended). When the call to the model throws during a turn on a
    stored session (the transcript being non-empty), the turn is still
    answered with a success: the reply is the fixed apology, the intent
    is [unknown], there is no list of suggested actions (the property is
    absent from the answer) and no token count, nothing is dispatched,
    and the stored session is the former one with the user's transcript
    and the apology appended to its history and [unknown] counted
    once. *)
Theorem processTurn_model_failure (env : TurnEnv) (req : TurnRequest)
    (σ : Store) (id : string) (s : VoiceSession) (tr : TranscriptionResult)
    (Hs : σ !! id = Some s) (Hreq : turnFor req id)
    (Htr : env_transcription env = Returned tr)
    (Hspoken : transcript tr ≠ EmptyString)
    (Hmodel : env_model env = ModelThrows) :
  Strict.processAudio env req σ
  = (Json {| result_transcript := transcript tr;
             result_confidence := transcript_confidence tr;
             result_text := apology;
             result_intent := unknown;
             result_actions := None;
             result_tokensUsed := None |},
     <[id := appended (assistantMessage apology (env_clockAssistant env))
               (Some "unknown"%string)
               (appended (userMessage (transcript tr) (env_clockUser env))
                  None s)]> σ)
  ∧ conversationHistory
      (appended (assistantMessage apology (env_clockAssistant env))
         (Some "unknown"%string)
         (appended (userMessage (transcript tr) (env_clockUser env)) None s))
    = conversationHistory s
      ++ [userMessage (transcript tr) (env_clockUser env);
          assistantMessage apology (env_clockAssistant env)].
Proof.
  rewrite (strict_processAudio_exact env req σ id s tr Hs Hreq Htr Hspoken).
  unfold afterTurn, turnReply. rewrite Hmodel. simpl.
  split; [reflexivity | by rewrite <- app_assoc].
Qed.

Lemma processTurn_model_failure_witness :
  Strict.processAudio (hearing "hello" ModelThrows) (postAudio "voice_1")
    {[ "voice_1"%string := annSession ]}
  = (Json {| result_transcript := "hello";
             result_confidence := QArith_base.Qmake 9 10;
             result_text := apology;
             result_intent := unknown;
             result_actions := None;
             result_tokensUsed := None |},
     <[ "voice_1"%string :=
          appended (assistantMessage apology 3000) (Some "unknown"%string)
            (appended (userMessage "hello" 2000) None annSession) ]>
       {[ "voice_1"%string := annSession ]})
  ∧ conversationHistory
      (appended (assistantMessage apology 3000) (Some "unknown"%string)
         (appended (userMessage "hello" 2000) None annSession))
    = conversationHistory annSession
      ++ [userMessage "hello" 2000; assistantMessage apology 3000].
Proof.
  apply (processTurn_model_failure (hearing "hello" ModelThrows)
           (postAudio "voice_1") {[ "voice_1"%string := annSession ]}
           "voice_1" annSession
           {| transcript := "hello";
              transcript_confidence := QArith_base.Qmake 9 10 |}).
  - vm_compute. reflexivity.
  - repeat split; [by eexists | discriminate].
  - reflexivity.
  - discriminate.
  - reflexivity.
Defined.

(** C5 (counterexample). The action the engine itself suggests for a
    [funnel_navigation] intent has a direction and no stage; its handler
    asks the store to write an undefined funnel stage and throws, and
    dispatch throws with it. In the route the turn [next] is therefore
    answered with status 500, after both messages were stored. *)
Lemma dispatch_aborts_on_handler_error :
  extractActions "Ok" funnel_navigation
    (buildAssistantContext annSession (Thrown CollaboratorFailed))
  = [nextStepAction]
  ∧ Strict.processSuggestedActions "voice_1" [nextStepAction]
      {[ "voice_1"%string := annSession ]}
    = (Thrown InvalidValue, {[ "voice_1"%string := annSession ]})
  ∧ (Strict.processAudio (hearing "next" (ModelReplies (Some "Ok"%string) None))
       (postAudio "voice_1") {[ "voice_1"%string := annSession ]}).1
    = JsonError 500 "Failed to process audio"
  ∧ conversationHistory <$>
      ((Strict.processAudio (hearing "next" (ModelReplies (Some "Ok"%string) None))
          (postAudio "voice_1") {[ "voice_1"%string := annSession ]}).2
       !! "voice_1"%string)
    = Some [userMessage "next" 2000; assistantMessage "Ok" 3000].
Proof.
  split; [reflexivity |]. split; [reflexivity |].
  split; vm_compute; reflexivity.
Qed.

(** C5 (amended). Dispatch handles the actions in order, one after the
    other, and nothing catches a handler's error: the first handler that
    throws ends dispatch with its error, what the earlier actions wrote
    stays written, and the later actions are not run. Actions with an
    unknown tag are ignored. On a stored session dispatch completes,
    leaving history, metadata, state and intent counters as they were,
    when every action carries a data object and every [navigate_funnel]
    action a stage. *)
Theorem dispatch_in_order_until_first_error (id : string) :
  (∀ l1 l2 (σ : Store),
     Strict.processSuggestedActions id (l1 ++ l2) σ
     = match Strict.processSuggestedActions id l1 σ with
       | (Returned _, σ1) => Strict.processSuggestedActions id l2 σ1
       | (Thrown e, σ1) => (Thrown e, σ1)
       end)
  ∧ (∀ l1 a l2 (σ σ1 σ2 : Store) e,
       Strict.processSuggestedActions id l1 σ = (Returned tt, σ1) →
       Strict.handleAction id a σ1 = (Thrown e, σ2) →
       Strict.processSuggestedActions id (l1 ++ a :: l2) σ = (Thrown e, σ2))
  ∧ (∀ a (σ : Store),
       type a ≠ "add_to_cart"%string → type a ≠ "search_products"%string →
       type a ≠ "navigate_funnel"%string →
       Strict.handleAction id a σ = (Returned tt, σ))
  ∧ (∀ actions (σ : Store) s,
       σ !! id = Some s → Forall handleable actions →
       ∃ s', Strict.processSuggestedActions id actions σ
             = (Returned tt, <[id := s']> σ)
             ∧ keepsTurns s s').
Proof.
  split; [apply strict_processSuggestedActions_app |]. split; [| split].
  - intros l1 a l2 σ σ1 σ2 e H1 Ha.
    rewrite strict_processSuggestedActions_app, H1. simpl.
    unfold mbind, Js_bind. by rewrite Ha.
  - intros a σ H1 H2 H3. unfold Strict.handleAction.
    apply String.eqb_neq in H1, H2, H3. by rewrite H1, H2, H3.
  - intros actions σ s Hs Hall.
    by apply strict_processSuggestedActions_stored.
Qed.

Lemma dispatch_in_order_until_first_error_witness :
  Strict.processSuggestedActions "voice_1"
    ([cartAction (Some (productData "p1"))]
     ++ nextStepAction :: [cartAction (Some (productData "p2"))])
    {[ "voice_1"%string := annSession ]}
  = (Thrown InvalidValue,
     <[ "voice_1"%string := setProductsDiscussed ["p1"%string] annSession ]>
       {[ "voice_1"%string := annSession ]}).
Proof.
  destruct (dispatch_in_order_until_first_error "voice_1") as (_ & H & _).
  apply (H [cartAction (Some (productData "p1"))] nextStepAction
           [cartAction (Some (productData "p2"))]
           {[ "voice_1"%string := annSession ]}
           (<[ "voice_1"%string := setProductsDiscussed ["p1"%string] annSession ]>
              {[ "voice_1"%string := annSession ]})).
  - vm_compute. reflexivity.
  - reflexivity.
Defined.

(* ===================================================================== *)
(** * Outcomes of a turn under validated writes *)
(* ===================================================================== *)

(** X1. An error answer of process-audio has status 405, 400, 404 or
    500. It leaves the collection exactly as it was, with one exception:
    the 500 of a turn whose intent is [funnel_navigation], which is given
    after both messages of the turn were stored. In particular every
    answer 405, 400 or 404 is given before anything is written. *)
Theorem processAudio_error_effect (env : TurnEnv) (req : TurnRequest)
    (σ : Store) (st : Z) (e : string)
    (Herr : (Strict.processAudio env req σ).1 = JsonError st e) :
  st ∈ [405; 400; 404; 500]%Z
  ∧ ((Strict.processAudio env req σ).2 = σ
     ∨ (st = 500%Z
        ∧ ∃ id s tr,
            σ !! id = Some s ∧ turnFor req id
            ∧ env_transcription env = Returned tr
            ∧ transcript tr ≠ EmptyString
            ∧ intent (turnReply env tr s) = funnel_navigation
            ∧ (Strict.processAudio env req σ).2
              = <[id := withBothMessages env tr s]> σ))
  ∧ (st ≠ 500%Z → (Strict.processAudio env req σ).2 = σ).
Proof.
  destruct (strict_processAudio_error_or_turn env req σ)
    as [(st' & e' & E & Hst) | (id & s & tr & Hs & Hreq & Htr & Hnz)].
  - rewrite E in Herr |- *. simpl in *. injection Herr as <- <-.
    split; [done |]. split; [by left | done].
  - pose proof (strict_processAudio_exact env req σ id s tr Hs Hreq Htr Hnz) as E.
    rewrite E in Herr |- *. case_bool_decide as Hf; [| discriminate].
    simpl in *. injection Herr as <- <-.
    split; [set_solver |]. split; [| done].
    right. split; [done |]. by exists id, s, tr.
Qed.

Lemma processAudio_error_effect_witness :
  (500%Z ∈ [405; 400; 404; 500]%Z)
  ∧ ((Strict.processAudio (hearing "next" (ModelReplies (Some "Ok"%string) None))
        (postAudio "voice_1") {[ "voice_1"%string := annSession ]}).2
     = {[ "voice_1"%string := annSession ]}
     ∨ (500%Z = 500%Z
        ∧ ∃ id s tr,
            ({[ "voice_1"%string := annSession ]} : Store) !! id = Some s
            ∧ turnFor (postAudio "voice_1") id
            ∧ env_transcription
                (hearing "next" (ModelReplies (Some "Ok"%string) None))
              = Returned tr
            ∧ transcript tr ≠ EmptyString
            ∧ intent (turnReply
                        (hearing "next" (ModelReplies (Some "Ok"%string) None))
                        tr s) = funnel_navigation
            ∧ (Strict.processAudio
                 (hearing "next" (ModelReplies (Some "Ok"%string) None))
                 (postAudio "voice_1") {[ "voice_1"%string := annSession ]}).2
              = <[id := withBothMessages
                          (hearing "next" (ModelReplies (Some "Ok"%string) None))
                          tr s]> {[ "voice_1"%string := annSession ]}))
  ∧ (500%Z ≠ 500%Z →
     (Strict.processAudio (hearing "next" (ModelReplies (Some "Ok"%string) None))
        (postAudio "voice_1") {[ "voice_1"%string := annSession ]}).2
     = {[ "voice_1"%string := annSession ]}).
Proof.
  apply (processAudio_error_effect
           (hearing "next" (ModelReplies (Some "Ok"%string) None))
           (postAudio "voice_1") {[ "voice_1"%string := annSession ]}
           500 "Failed to process audio").
  vm_compute. reflexivity.
Defined.

(** X2. process-audio answers with a success exactly when the request
    is a POST with an audio clip and a non-empty session id, the session
    is stored, the transcriber returns a non-empty transcript, and the
    intent of the reply is not [funnel_navigation]. *)
Theorem processAudio_success_iff (env : TurnEnv) (req : TurnRequest)
    (σ : Store) :
  (∃ body, (Strict.processAudio env req σ).1 = Json body)
  ↔ ∃ id s tr, σ !! id = Some s ∧ turnFor req id
               ∧ env_transcription env = Returned tr
               ∧ transcript tr ≠ EmptyString
               ∧ intent (turnReply env tr s) ≠ funnel_navigation.
Proof.
  split.
  - intros [body Hb].
    destruct (strict_processAudio_error_or_turn env req σ)
      as [(st' & e' & E & _) | (id & s & tr & Hs & Hreq & Htr & Hnz)].
    + rewrite E in Hb. discriminate.
    + rewrite (strict_processAudio_exact env req σ id s tr Hs Hreq Htr Hnz) in Hb.
      case_bool_decide as Hf; [discriminate |]. by exists id, s, tr.
  - intros (id & s & tr & Hs & Hreq & Htr & Hnz & Hf).
    rewrite (strict_processAudio_exact env req σ id s tr Hs Hreq Htr Hnz).
    rewrite bool_decide_eq_false_2 by done. by eexists.
Qed.

(** X8. What the customer-account query answers reaches a turn through
    the model only (it goes into the system prompt): for the same
    transcript, the same outcome of the model call and the same clock,
    two turns that differ in that answer (a customer with a cart, no
    customer, or a throw) give the same response and the same
    collection. Neither the name nor the cart is stored, and a failed
    query never fails the turn. *)
Theorem cart_lookup_reaches_turn_through_model_only (env1 env2 : TurnEnv)
    (req : TurnRequest) (σ : Store)
    (Htr : env_transcription env1 = env_transcription env2)
    (Hmodel : env_model env1 = env_model env2)
    (Hu : env_clockUser env1 = env_clockUser env2)
    (Ha : env_clockAssistant env1 = env_clockAssistant env2) :
  Strict.processAudio env1 req σ = Strict.processAudio env2 req σ.
Proof.
  unfold Strict.processAudio.
  destruct (String.eqb (req_method req) "POST"); simpl; [| reflexivity].
  unfold Strict.processAudioTry.
  destruct (req_audio req) as [au|]; [| reflexivity].
  destruct (req_sessionId req) as [[|c0 id0]|]; try reflexivity.
  run_js. destruct (σ !! String c0 id0) as [s|]; [| reflexivity].
  run_js. rewrite Htr, Hmodel, Hu, Ha.
  destruct (env_transcription env2) as [tr|e]; [| reflexivity].
  destruct (transcript tr) as [|c1 t1]; [reflexivity |].
  by rewrite (generateAssistantResponse_context _
                (buildAssistantContext s (env_customerQuery env1))
                (buildAssistantContext s (env_customerQuery env2))).
Qed.

Lemma cart_lookup_reaches_turn_through_model_only_witness :
  Strict.processAudio (hearing "hello" ModelThrows) (postAudio "voice_1")
    {[ "voice_1"%string := annSession ]}
  = Strict.processAudio
      {| env_transcription :=
           Returned {| transcript := "hello";
                       transcript_confidence := QArith_base.Qmake 9 10 |};
         env_customerQuery :=
           Returned (Some {| firstName := Some "Ann"%string; cart := Some [] |});
         env_model := ModelThrows;
         env_clockUser := 2000; env_clockAssistant := 3000 |}
      (postAudio "voice_1") {[ "voice_1"%string := annSession ]}.
Proof.
  apply cart_lookup_reaches_turn_through_model_only; reflexivity.
Defined.

(* ===================================================================== *)
(** * Missing sessions, and context updates under validated writes *)
(* ===================================================================== *)

(** X10. For a session id of the shape the service generates that is
    not stored, nothing is written, and the operations differ in what
    they report: pause, resume and the message append throw (the
    document update fails), the context update throws its own
    [Session not found], while end and the two trackers return
    normally. *)
Theorem missing_session_behaviour (σ : Store) (id : string)
    (Hid : generatedId id = true) (Hmissing : σ !! id = None) :
  pauseVoiceSession id σ = (Thrown DocumentMissing, σ)
  ∧ resumeVoiceSession id σ = (Thrown DocumentMissing, σ)
  ∧ (∀ m i, addMessageToSession id m i σ = (Thrown DocumentMissing, σ))
  ∧ (∀ p, Strict.updateSessionContext id p σ = (Thrown SessionNotFoundError, σ))
  ∧ (∀ score t1 t2, endVoiceSession id score t1 t2 σ = (Returned tt, σ))
  ∧ (∀ productId, trackProductDiscussion id productId σ = (Returned tt, σ))
  ∧ trackConversionAttempt id σ = (Returned tt, σ).
Proof.
  repeat split; intros;
    try (by apply addMessageToSession_missing);
    unfold pauseVoiceSession, resumeVoiceSession, Strict.updateSessionContext,
           endVoiceSession, trackProductDiscussion, trackConversionAttempt;
    run_js; by rewrite Hmissing.
Qed.

Lemma missing_session_behaviour_witness :
  pauseVoiceSession "voice_9" {[ "voice_1"%string := annSession ]}
  = (Thrown DocumentMissing, {[ "voice_1"%string := annSession ]}).
Proof.
  apply (missing_session_behaviour {[ "voice_1"%string := annSession ]}
           "voice_9").
  - vm_compute. reflexivity.
  - vm_compute. reflexivity.
Defined.

Lemma storablePatch_spread p q :
  Strict.storablePatch p = true → Strict.storablePatch q = true →
  Strict.storablePatch (spreadPatch p q) = true.
Proof.
  destruct p as [p1 p2 p3 p4 p5 p6 p7], q as [q1 q2 q3 q4 q5 q6 q7].
  unfold Strict.storablePatch, spreadPatch. simpl.
  rewrite !andb_true_iff.
  intros ((((((?&?)&?)&?)&?)&?)&?) ((((((?&?)&?)&?)&?)&?)&?).
  repeat split;
    match goal with
    | |- Strict.definedKey (match ?k with _ => _ end) = true =>
        by destruct k
    end.
Qed.

(** X13. Context updates on a stored session: a patch in which a key
    holds [undefined] is refused and nothing is written; a patch with no
    key changes nothing; and for patches without [undefined], two
    updates in a row are one update with the second patch spread over
    the first. *)
Theorem updateSessionContext_composes (σ : Store) (id : string)
    (s : VoiceSession) (Hs : σ !! id = Some s) :
  (∀ p, Strict.storablePatch p = false →
        Strict.updateSessionContext id p σ = (Thrown InvalidValue, σ))
  ∧ Strict.updateSessionContext id emptyPatch σ = (Returned tt, σ)
  ∧ ∀ p q,
      Strict.storablePatch p = true → Strict.storablePatch q = true →
      (Strict.updateSessionContext id p ;; Strict.updateSessionContext id q) σ
      = Strict.updateSessionContext id (spreadPatch p q) σ.
Proof.
  split; [| split].
  - intros p Hp. by rewrite (strict_updateSessionContext_stored _ _ _ _ Hs), Hp.
  - rewrite (strict_updateSessionContext_stored _ _ _ _ Hs). simpl.
    by rewrite spreadContext_empty, setContext_same, insert_id.
  - intros p q Hp Hq. unfold mbind, Js_bind.
    rewrite !(strict_updateSessionContext_stored _ _ _ _ Hs).
    rewrite Hp, (storablePatch_spread p q Hp Hq).
    rewrite (strict_updateSessionContext_stored _ _ _ _ (lookup_insert_eq _ _ _)).
    rewrite Hq, insert_insert_eq. simpl.
    by rewrite spreadContext_spread.
Qed.

Lemma updateSessionContext_composes_witness :
  Strict.updateSessionContext "voice_1" (funnelPatch None)
    {[ "voice_1"%string := annSession ]}
  = (Thrown InvalidValue, {[ "voice_1"%string := annSession ]})
  ∧ Strict.updateSessionContext "voice_1" emptyPatch
      {[ "voice_1"%string := annSession ]}
    = (Returned tt, {[ "voice_1"%string := annSession ]}).
Proof.
  destruct (updateSessionContext_composes {[ "voice_1"%string := annSession ]}
              "voice_1" annSession) as (H1 & H2 & _).
  - vm_compute. reflexivity.
  - split; [apply H1; reflexivity | exact H2].
Defined.

(* ===================================================================== *)
(** * Starting a session *)
(* ===================================================================== *)

Lemma orString_orString s d :
  d ≠ EmptyString → orString (Some (orString s d)) d = orString s d.
Proof.
  intros Hd. unfold orString, truthyString.
  destruct s as [[|c s]|]; simpl; try done; by destruct d.
Qed.

Example start_named_customer :
  startSession startingAnn postStart ∅
  = (Json {| started_sessionId := "voice_1"; started_language := "en-US";
             started_customerId := Some "c1"%string;
             started_customerName := Some "Ann Lee"%string |},
     {[ "voice_1"%string := annSession ]}).
Proof. vm_compute. reflexivity. Qed.

Example start_guest_fails :
  startSession startingGuest postStart ∅
  = (JsonError 500 "Failed to start voice session", ∅).
Proof. vm_compute. reflexivity. Qed.

(** X24. start-session answers with a success exactly for a POST whose
    body parses, sent with a user-agent and an x-forwarded-for header
    whose first field is not empty, by a customer the account query
    returns without errors; every other request is answered with 405 or
    500 and writes nothing (a guest cannot start a session: the record
    would hold [undefined]). A success stores, under the new id and
    leaving the other sessions alone, an active session with an empty
    history, zeroed counters and no end time, whose language is the
    requested one or en-US when none (or an empty one) came, and whose
    customer is the one the query returned. *)
Theorem startSession_outcomes (env : StartEnv) (req : StartRequest)
    (σ : Store) :
  match startSession env req σ with
  | (JsonError st _, σ') => σ' = σ ∧ st ∈ [405; 500]%Z
  | (Json body, σ') =>
      ∃ b answer c ua ip s,
        start_method req = "POST"%string
        ∧ start_body req = Returned b
        ∧ start_customerQuery env = Returned answer
        ∧ answer_errors answer = false ∧ answer_customer answer = Some c
        ∧ orUndefined (start_userAgent req) = Some ua
        ∧ forwardedAddress (start_forwardedFor req) = Some ip
        ∧ σ' = <[start_newId env := s]> σ
        ∧ sessionId s = start_newId env
        ∧ started_sessionId body = start_newId env
        ∧ language s = orString (body_language b) "en-US"
        ∧ started_language body = language s
        ∧ customerId s = Some (profile_id c)
        ∧ started_customerId body = customerId s
        ∧ status s = active ∧ endTime s = None
        ∧ startTime s = start_clock env
        ∧ conversationHistory s = []
        ∧ userAgent (metadata s) = Some ua
        ∧ ipAddress (metadata s) = Some ip
        ∧ snapshotOf s
          = {| snap_totalMessages := 0; snap_intents := ∅;
               snap_productsDiscussed := []; snap_conversionsAttempted := 0 |}
  end
  ∧ (start_method req = "POST"%string →
     (∃ b, start_body req = Returned b) →
     (∃ answer c, start_customerQuery env = Returned answer
                  ∧ answer_errors answer = false
                  ∧ answer_customer answer = Some c) →
     is_Some (orUndefined (start_userAgent req)) →
     is_Some (forwardedAddress (start_forwardedFor req)) →
     ∃ body, (startSession env req σ).1 = Json body).
Proof.
  split.
  - unfold startSession.
    destruct (String.eqb (start_method req) "POST") eqn:Hm; simpl;
      [| split; [done | set_solver]].
    apply String.eqb_eq in Hm. unfold startSessionTry.
    destruct (start_body req) as [b|e] eqn:Hb; run_js;
      [| split; [done | set_solver]].
    unfold Strict.createVoiceSession. simpl.
    destruct (start_customerQuery env) as [answer|e] eqn:Hq; simpl;
      [| split; [done | set_solver]].
    destruct (answer_errors answer) eqn:He; simpl;
      [split; [done | set_solver] |].
    destruct (answer_customer answer) as [c|] eqn:Hc; simpl;
      [| split; [done | set_solver]].
    destruct (orUndefined (start_userAgent req)) as [ua|] eqn:Hua; simpl;
      [| split; [done | set_solver]].
    destruct (forwardedAddress (start_forwardedFor req)) as [ip|] eqn:Hip;
      simpl; [| split; [done | set_solver]].
    run_js. eexists b, answer, c, ua, ip, _.
    do 7 (split; [done |]). split; [reflexivity |]. simpl.
    change (match orString (body_language b) "en-US" with
            | EmptyString => "en-US"%string
            | String _ _ => orString (body_language b) "en-US"
            end)
      with (orString (Some (orString (body_language b) "en-US")) "en-US").
    rewrite orString_orString by done. by repeat split.
  - intros Hm [b Hb] (answer & c & Hq & He & Hc) [ua Hua] [ip Hip].
    unfold startSession, startSessionTry. rewrite Hm, Hb. run_js.
    unfold Strict.createVoiceSession. simpl.
    rewrite Hq, He, Hc, Hua, Hip. run_js. by eexists.
Qed.

(* ===================================================================== *)
(** * Ending a session: every outcome *)
(* ===================================================================== *)

Example end_unparsable_body :
  Strict.endSession (endingAt 9000)
    {| Strict.post_method := "POST";
       Strict.post_body := Thrown CollaboratorFailed |}
    {[ "voice_1"%string := annSession ]}
  = (JsonError 500 "Failed to end voice session",
     {[ "voice_1"%string := annSession ]}).
Proof. vm_compute. reflexivity. Qed.

(** X27. end-session answers with an error and leaves the collection
    as it was, or it answers with a success for a stored session, which
    it ends, leaving the other sessions alone. A body that is not JSON
    is answered with 500. The summary of a success is absent when the
    session has no message (the summarizer is not asked) and when the
    summarizer throws; otherwise it is what the summarizer returned. *)
Theorem endSession_outcomes (env : EndEnv) (req : Strict.EndPost)
    (σ : Store) :
  match Strict.endSession env req σ with
  | (JsonError st _, σ') =>
      σ' = σ
      ∧ (Strict.post_method req = "POST"%string →
         (∃ e, Strict.post_body req = Thrown e) → st = 500%Z)
  | (Json body, σ') =>
      ∃ b id s,
        Strict.post_method req = "POST"%string
        ∧ Strict.post_body req = Returned b
        ∧ Strict.body_sessionId b = Some id
        ∧ σ !! id = Some s
        ∧ σ' = <[id := ended (Strict.body_satisfactionScore b)
                         (env_clockDuration env) (env_clockEnd env) s]> σ
        ∧ end_analytics body = snapshotOf s
        ∧ end_summary body
          = match conversationHistory s, env_summary env with
            | _ :: _, Returned summary => Some summary
            | _, _ => None
            end
  end.
Proof.
  unfold Strict.endSession.
  destruct (String.eqb (Strict.post_method req) "POST") eqn:Hm; simpl.
  2:{ split; [done |]. intros Hp. rewrite Hp in Hm. discriminate. }
  apply String.eqb_eq in Hm. unfold Strict.endSessionTry.
  destruct (Strict.post_body req) as [b|e] eqn:Hb; run_js; [| done].
  destruct (Strict.body_sessionId b) as [[|c0 id0]|] eqn:Hid;
    try (split; [done |]; by intros _ [? ?]).
  run_js. destruct (σ !! String c0 id0) as [s|] eqn:Hs;
    [| split; [done |]; by intros _ [? ?]].
  destruct (conversationHistory s) as [|m h] eqn:Hh; simpl;
    [| destruct (env_summary env) as [summary|e]; simpl];
    fold (getVoiceSession (String c0 id0));
    rewrite (endVoiceSession_stored _ _ _ Hs);
    exists b, (String c0 id0), s; by rewrite ?Hh.
Qed.

(* ===================================================================== *)
(** * Start, one turn, end *)
(* ===================================================================== *)

Lemma startSession_success env req (σ σ' : Store) body :
  startSession env req σ = (Json body, σ') →
  started_sessionId body = start_newId env
  ∧ ∃ data,
      σ' = <[start_newId env :=
               freshSession (start_newId env) (start_clock env) data]> σ.
Proof.
  unfold startSession.
  destruct (String.eqb (start_method req) "POST"); simpl; [| discriminate].
  unfold startSessionTry.
  destruct (start_body req) as [b|e]; run_js; [| discriminate].
  unfold Strict.createVoiceSession. simpl.
  destruct (start_customerQuery env) as [answer|e]; simpl; [| discriminate].
  destruct (answer_errors answer); simpl; [discriminate |].
  destruct (answer_customer answer) as [c|]; simpl; [| discriminate].
  destruct (orUndefined (start_userAgent req)) as [ua|]; simpl;
    [| discriminate].
  destruct (forwardedAddress (start_forwardedFor req)) as [ip|]; simpl;
    [| discriminate].
  run_js. intros [= ? ?]. subst. split; [reflexivity | by eexists].
Qed.

Lemma strict_endSession_stored env req b (σ : Store) id s :
  σ !! id = Some s →
  Strict.post_method req = "POST"%string →
  Strict.post_body req = Returned b →
  Strict.body_sessionId b = Some id → id ≠ EmptyString →
  ∃ summary,
    Strict.endSession env req σ
    = (Json {| end_summary := summary; end_analytics := snapshotOf s |},
       <[id := ended (Strict.body_satisfactionScore b)
                 (env_clockDuration env) (env_clockEnd env) s]> σ).
Proof.
  intros Hs Hm Hb Hid Hne.
  unfold Strict.endSession, Strict.endSessionTry. rewrite Hm, Hb. run_js.
  rewrite Hid. destruct id as [|c0 id0]; [done |].
  run_js. rewrite Hs.
  destruct (0 <? length (conversationHistory s))%nat;
    [destruct (env_summary env) as [sm|e] |];
    run_js; fold (getVoiceSession (String c0 id0));
    rewrite (endVoiceSession_stored _ _ _ Hs); eexists; reflexivity.
Qed.

(** X26. Start, one turn, end: when start-session answers with a
    success, a turn for the session it names is answered with a success
    too, and the session is then ended, the end is a success whose
    analytics count two messages, the intent of the turn once (which is
    not [funnel_navigation]), no product, and one conversion attempt
    exactly when that intent is [add_to_cart] or [checkout]; the stored
    session is completed, its history is the user message followed by
    the reply, and the other sessions are as they were. *)
Theorem one_turn_conversation (σ : Store)
    (envS : StartEnv) (reqS : StartRequest) (started : StartResult)
    (envT : TurnEnv) (reqT : TurnRequest) (turn : TurnResult)
    (envE : EndEnv) (reqE : Strict.EndPost) (b : Strict.EndBody)
    (HS : (startSession envS reqS σ).1 = Json started)
    (HT : req_sessionId reqT = Some (started_sessionId started))
    (Hturn : (Strict.processAudio envT reqT (startSession envS reqS σ).2).1
             = Json turn)
    (HE : Strict.post_method reqE = "POST"%string)
    (Hb : Strict.post_body reqE = Returned b)
    (Hid : Strict.body_sessionId b = Some (started_sessionId started)) :
  ∃ ending final,
    Strict.endSession envE reqE
      (Strict.processAudio envT reqT (startSession envS reqS σ).2).2
    = (Json ending, <[started_sessionId started := final]> σ)
    ∧ result_intent turn ≠ funnel_navigation
    ∧ end_analytics ending
      = {| snap_totalMessages := 2;
           snap_intents := {[ intentName (result_intent turn) := 1%Z ]};
           snap_productsDiscussed := [];
           snap_conversionsAttempted :=
             if bool_decide (result_intent turn = add_to_cart)
                || bool_decide (result_intent turn = checkout)
             then 1 else 0 |}
    ∧ status final = completed
    ∧ conversationHistory final
      = [userMessage (result_transcript turn) (env_clockUser envT);
         assistantMessage (result_text turn) (env_clockAssistant envT)].
Proof.
  destruct (startSession envS reqS σ) as [r σ1] eqn:E1. simpl in *. subst r.
  destruct (startSession_success _ _ _ _ _ E1) as (Hsid & data & ->).
  rewrite Hsid in *. clear E1 Hsid.
  set (id := start_newId envS) in *.
  set (s0 := freshSession id (start_clock envS) data) in *.
  destruct (strict_processAudio_error_or_turn envT reqT (<[id := s0]> σ))
    as [(st & e & E & _) | (id' & s & tr & Hs & Hreq & Htr & Hnz)].
  { rewrite E in Hturn. discriminate. }
  assert (id' = id) as ->.
  { destruct Hreq as (_ & _ & Hreq & _). congruence. }
  rewrite lookup_insert_eq in Hs. injection Hs as <-.
  assert (Hne : id ≠ EmptyString) by (by destruct Hreq as (_ & _ & _ & ?)).
  rewrite (strict_processAudio_exact envT reqT _ id s0 tr
             (lookup_insert_eq _ _ _) Hreq Htr Hnz) in Hturn |- *.
  case_bool_decide as Hf; [discriminate |]. simpl in Hturn |- *.
  injection Hturn as <-.
  destruct (strict_endSession_stored envE reqE b
              (<[id := afterTurn envT tr s0]> (<[id := s0]> σ)) id
              (afterTurn envT tr s0) (lookup_insert_eq _ _ _) HE Hb Hid Hne)
    as (summary & E3).
  rewrite !insert_insert_eq in E3.
  eexists _, _. split; [rewrite insert_insert_eq; exact E3 |]. simpl.
  split; [done |]. split; [| split].
  - unfold snapshotOf.
    rewrite afterTurn_total, afterTurn_intents, afterTurn_products,
            afterTurn_conversions.
    simpl. rewrite insert_empty. f_equal.
  - unfold ended. by repeat case_match.
  - assert (Hh : conversationHistory
                   (ended (Strict.body_satisfactionScore b)
                      (env_clockDuration envE) (env_clockEnd envE)
                      (afterTurn envT tr s0))
                 = conversationHistory (afterTurn envT tr s0)).
    { unfold ended. by repeat case_match. }
    rewrite Hh, afterTurn_history. reflexivity.
Qed.

Lemma one_turn_conversation_witness :
  ∃ ending final,
    Strict.endSession (endingAt 9000)
      {| Strict.post_method := "POST";
         Strict.post_body :=
           Returned {| Strict.body_sessionId := Some "voice_1"%string;
                       Strict.body_satisfactionScore := None |} |}
      (Strict.processAudio
         (hearing "I want to buy this" (ModelReplies (Some "Sure"%string) None))
         (postAudio "voice_1") (startSession startingAnn postStart ∅).2).2
    = (Json ending, <[ "voice_1"%string := final]> ∅)
    ∧ checkout ≠ funnel_navigation
    ∧ end_analytics ending
      = {| snap_totalMessages := 2;
           snap_intents := {[ "checkout"%string := 1%Z ]};
           snap_productsDiscussed := [];
           snap_conversionsAttempted := 1 |}
    ∧ status final = completed
    ∧ conversationHistory final
      = [userMessage "I want to buy this" 2000;
         assistantMessage "Sure" 3000].
Proof.
  apply (one_turn_conversation ∅ startingAnn postStart
           {| started_sessionId := "voice_1"; started_language := "en-US";
              started_customerId := Some "c1"%string;
              started_customerName := Some "Ann Lee"%string |}
           (hearing "I want to buy this" (ModelReplies (Some "Sure"%string) None))
           (postAudio "voice_1")
           {| result_transcript := "I want to buy this";
              result_confidence := QArith_base.Qmake 9 10;
              result_text := "Sure";
              result_intent := checkout;
              result_actions :=
                Some [{| type := "navigate_to_checkout";
                         data := Some {| data_query := None;
                                         data_productId := None;
                                         data_direction := None;
                                         data_customerId := None;
                                         data_stage := None |} |}];
              result_tokensUsed := None |}
           (endingAt 9000)
           {| Strict.post_method := "POST";
              Strict.post_body :=
                Returned {| Strict.body_sessionId := Some "voice_1"%string;
                            Strict.body_satisfactionScore := None |} |}
           {| Strict.body_sessionId := Some "voice_1"%string;
              Strict.body_satisfactionScore := None |}).
  - vm_compute. reflexivity.
  - reflexivity.
  - vm_compute. reflexivity.
  - reflexivity.
  - reflexivity.
  - reflexivity.
Defined.
